(** * Insurance data simulator: logger utility and simulation loop

    A shallow embedding of [data-generator/logger_utility.py] and
    [data-generator/Simulator.py], with the properties of the log-file
    lifecycle, the configuration loader, the record generator and the
    simulation loop stated and proved over it.

    Conventions.
    - A naive [datetime] is an integer number of microseconds ([Z]) counted
      from 1970-01-01 00:00:00 on the local clock; a [timedelta] of [d] days
      is [d * 86_400_000_000] microseconds.
    - A text ([str]) is the sequence of the bytes of its UTF-8 encoding.
    - A directory is a finite map from entry names to files ([gmap]).
    - Everything the program reads from outside (the clock, the operating
      system's answers, the process environment, the random source, the
      document store, signals) is an explicit argument; everything it
      writes (log records, printed lines, inserted documents) is an explicit
      result. *)

From Stdlib Require Import ZArith String Ascii List Bool Lia Floats Uint63.
From stdpp Require Import gmap strings list fin_maps pretty.

Local Open Scope string_scope.
Local Open Scope list_scope.
Local Open Scope Z_scope.

(** ** Python string helpers *)

(** [s.endswith(suffix)] *)
Definition endswith (s suffix : string) : bool :=
  let n := String.length s in
  let m := String.length suffix in
  if (m <=? n)%nat then String.eqb (substring (n - m) m s) suffix else false.

(** ** Exceptions

    One constructor per class the program tells apart; a constructor stands
    for the class and its subclasses.  [KeyboardInterrupt] derives from
    [BaseException] only, the others from [Exception]. *)
Inductive exn :=
  | KeyboardInterrupt
  | ValueError (msg : string)
  | OverflowError (msg : string)
  | OSError (msg : string)
  | ConnectionFailure (msg : string)
  | DuplicateKeyError (msg : string)
  | WriteConcernError (msg : string)
  | InvalidName (msg : string)
  | OtherException (msg : string).

(** [str(e)] *)
Definition exn_str (e : exn) : string :=
  match e with
  | KeyboardInterrupt => ""
  | ValueError m | OverflowError m | OSError m | ConnectionFailure m
  | DuplicateKeyError m | WriteConcernError m | InvalidName m
  | OtherException m => m
  end.

Definition is_Exception (e : exn) : bool :=
  match e with KeyboardInterrupt => false | _ => true end.

(** * logger_utility.py *)

Module LoggerUtility.

(** ** Configuration constants *)

Definition LOG_DIR : string := "logs".
Definition ARCHIVE_NAME : string := "archive".

(** [LOG_FILENAME = f"simulator_{datetime.now().strftime('%Y-%m-%d')}.log"],
    evaluated once when the module is imported; [today] is the text that
    [strftime] produced at that moment. *)
Definition LOG_FILENAME (today : string) : string :=
  "simulator_" +:+ today +:+ ".log".

(** ** The file system under [LOG_DIR] *)

(** A directory entry: its last-modified time (microseconds, as
    [datetime.fromtimestamp] reports it when it can), and its content. *)
Record file := File { mtime : Z; content : string }.

(** [log_dir] holds the entries of [logs/] other than the [archive]
    sub-directory, [archive_dir] the entries of [logs/archive/]. *)
Record filesystem := Fs {
  log_dir : gmap string file;
  archive_dir : gmap string file
}.

(** What a run of the clean-up writes: a line on standard output, or an
    ERROR record of the logger 'InsuranceSimulatorLogger'. *)
Inductive output :=
  | Printed (line : string)
  | LoggedError (msg : string).

(** What the operating system and the libraries answer to the calls of
    this module during one run.  An answer [Some e] is the text of the
    exception the call raises, [None] means that the call goes through. *)
Record system := System {
  (* os.makedirs of either directory *)
  makedirs_error : option string;
  (* logging.FileHandler opening the day's file for appending *)
  open_error : option string;
  (* the time stamp the day's file gets when that call creates it *)
  created : Z;
  (* os.listdir(LOG_DIR) *)
  listdir_error : option string;
  (* os.path.getmtime for an entry name: a dangling link, an entry removed
     in between, a refused stat *)
  getmtime_error : string -> option string;
  (* datetime.fromtimestamp for a time: outside the years 1 to 9999, or one
     the platform's localtime rejects *)
  fromtimestamp_error : Z -> option string;
  (* shutil.move for an entry name *)
  move_error : string -> option string;
  (* what a move that raised has left in the archive under the name:
     nothing, or the whole or partial copy made before the failure *)
  move_residue : string -> option file;
  (* print of a line on standard output: a closed or broken stream, a
     character the stream's encoding does not have *)
  print_error : string -> option string;
  (* the file handler of the logger: the text it appends to the day's file
     for the ERROR records with the given messages (the formatter's lines,
     time stamps included), and the time stamp the file has afterwards *)
  handler_text : list string -> string;
  handler_time : Z
}.

(** [timedelta(days=d)] in microseconds. *)
Definition timedelta_days (d : Z) : Z := d * 86400000000.

(** [datetime.min] and [datetime.max]: 0001-01-01 00:00:00 and
    9999-12-31 23:59:59.999999. *)
Definition DATETIME_MIN : Z := -62135596800000000.
Definition DATETIME_MAX : Z := 253402300799999999.

(** [datetime.now() - timedelta(days=days_to_keep)] when the clock reads
    [now]: [timedelta] takes a day count that fits a C int and is at most
    999999999 in magnitude, and the difference has to be a [datetime]. *)
Definition cutoff_date (days_to_keep now : Z) : exn + Z :=
  if (days_to_keep <? -2147483648) || (2147483647 <? days_to_keep) then
    inl (OverflowError "Python int too large to convert to C int")
  else if 999999999 <? Z.abs days_to_keep then
    inl (OverflowError ("days=" +:+ pretty days_to_keep
                        +:+ "; must have magnitude <= 999999999"))
  else
    let c := now - timedelta_days days_to_keep in
    if (DATETIME_MIN <=? c) && (c <=? DATETIME_MAX) then inr c
    else inl (OverflowError "date value out of range").

(** The names [os.listdir(LOG_DIR)] returns when it does not raise: those
    in the directory, the [archive] sub-directory included.  The order is
    that of the map's enumeration; [cleanup_fold_lookup] below shows that
    the loop leaves the same directories for every order of the listing. *)
Definition listdir (fs : filesystem) : list string :=
  ARCHIVE_NAME :: (map_to_list (log_dir fs)).*1.

Section Cleanup.

(** The active day's text, fixed at import. *)
Variable today : string.

(** The answers of the operating system. *)
Variable sys : system.

(** [os.path.getmtime(filepath)] *)
Definition getmtime (fs : filesystem) (filename : string) : string + Z :=
  match getmtime_error sys filename with
  | Some e => inl e
  | None =>
      match log_dir fs !! filename with
      | Some f => inr (mtime f)
      | None => inl ("[Errno 2] No such file or directory: 'logs/" +:+ filename +:+ "'")
      end
  end.

(** [datetime.fromtimestamp(t)] *)
Definition fromtimestamp (t : Z) : string + Z :=
  match fromtimestamp_error sys t with
  | Some e => inl e
  | None => inr t
  end.

(** [shutil.move(filepath, archive_path)] with the exception it raised, if
    any.  When it goes through, the entry has left [logs/] and is under the
    same name in [logs/archive/], replacing a file of that name there.  When
    it raises, the entry is still in [logs/], and the archive holds under
    its name what the attempt left there ([move_residue]). *)
Definition move (fs : filesystem) (filename : string)
    : option string * filesystem :=
  match log_dir fs !! filename with
  | None =>
      (Some ("[Errno 2] No such file or directory: 'logs/" +:+ filename +:+ "'"), fs)
  | Some f =>
      match move_error sys filename with
      | None =>
          (None, Fs (delete filename (log_dir fs))
                    (<[filename := f]> (archive_dir fs)))
      | Some e =>
          (Some e,
           match move_residue sys filename with
           | Some g => Fs (log_dir fs) (<[filename := g]> (archive_dir fs))
           | None => fs
           end)
      end
  end.

Definition cleanup_error (filename e : string) : output :=
  LoggedError ("Error during log cleanup for " +:+ filename +:+ ": " +:+ e).

(** The body of [for filename in os.listdir(LOG_DIR)]. *)
Definition cleanup_step (cutoff_date : Z)
    (st : filesystem * list output) (filename : string)
    : filesystem * list output :=
  let '(fs, out) := st in
  if endswith filename ".log" then
    (* Skip the currently active log file *)
    if String.eqb filename (LOG_FILENAME today) then st
    else
      match getmtime fs filename with
      | inl e => (fs, out ++ [cleanup_error filename e])
      | inr t =>
          match fromtimestamp t with
          | inl e => (fs, out ++ [cleanup_error filename e])
          | inr file_time =>
              if file_time <? cutoff_date then
                match move fs filename with
                | (Some e, fs') => (fs', out ++ [cleanup_error filename e])
                | (None, fs') =>
                    let line := "Archived old log file: " +:+ filename in
                    match print_error sys line with
                    | Some e => (fs', out ++ [cleanup_error filename e])
                    | None => (fs', out ++ [Printed line])
                    end
                end
              else st
          end
      end
  else st.

(** [cleanup_old_logs(days_to_keep)], run when the clock reads [now]: the
    file system it leaves, what it has written, and the exception it
    raised, if any.  The cutoff and the listing come before the loop and
    outside its [try]: an exception there leaves the function at once. *)
Definition cleanup_old_logs (days_to_keep : Z) (now : Z) (fs : filesystem)
    : filesystem * (list output * option exn) :=
  match cutoff_date days_to_keep now with
  | inl e => (fs, ([], Some e))
  | inr cutoff =>
      match listdir_error sys with
      | Some e => (fs, ([], Some (OSError e)))
      | None =>
          let r := foldl (cleanup_step cutoff) (fs, []) (listdir fs) in
          (r.1, (r.2, None))
      end
  end.

(** The loop body gets as far as [shutil.move] for an entry: read off the
    starting state. *)
Definition move_attempted (cutoff_date : Z) (fs : filesystem) (filename : string) : bool :=
  endswith filename ".log"
  && negb (String.eqb filename (LOG_FILENAME today))
  && match log_dir fs !! filename with
     | Some f =>
         match getmtime_error sys filename, fromtimestamp_error sys (mtime f) with
         | None, None => mtime f <? cutoff_date
         | _, _ => false
         end
     | None => false
     end.

(** The test the loop body applies to one entry, read off the starting
    state: the entry is moved exactly when this holds
    ([cleanup_fs_lookup]). *)
Definition archivable (cutoff_date : Z) (fs : filesystem) (filename : string) : bool :=
  move_attempted cutoff_date fs filename
  && match move_error sys filename with Some _ => false | None => true end.

(** What the loop puts into the archive under a name: the entry, when it is
    moved, or what a move that raised left there. *)
Definition archived (cutoff_date : Z) (fs : filesystem) (filename : string)
    : option file :=
  if archivable cutoff_date fs filename then log_dir fs !! filename
  else if move_attempted cutoff_date fs filename then move_residue sys filename
  else None.

(** The messages of the ERROR records among what the clean-up wrote. *)
Definition error_messages (out : list output) : list string :=
  omap (fun o => match o with
                 | LoggedError m => Some m
                 | Printed _ => None
                 end) out.

(** The file handler of the logger, attached before the clean-up runs,
    appends every ERROR record of the clean-up to the day's file. *)
Definition handle_errors (out : list output) (fs : filesystem) : filesystem :=
  match error_messages out with
  | [] => fs
  | msgs =>
      let active := LOG_FILENAME today in
      let old := default "" (content <$> log_dir fs !! active) in
      Fs (<[active := File (handler_time sys) (old +:+ handler_text sys msgs)]>
            (log_dir fs))
         (archive_dir fs)
  end.

(** [setup_logger()], as far as the file system is concerned:
    [os.makedirs] of both directories (an error there propagates), opening
    the day's file for appending (created empty when absent, an error
    propagates), then [cleanup_old_logs()] with its default of 7 days, whose
    exception propagates too. *)
Definition setup_logger (now : Z) (fs : filesystem)
    : filesystem * (list output * option exn) :=
  match makedirs_error sys with
  | Some e => (fs, ([], Some (OSError e)))
  | None =>
      match open_error sys with
      | Some e => (fs, ([], Some (OSError e)))
      | None =>
          let active := LOG_FILENAME today in
          let fs1 :=
            match log_dir fs !! active with
            | Some _ => fs
            | None => Fs (<[active := File (created sys) ""]> (log_dir fs))
                         (archive_dir fs)
            end in
          let r := cleanup_old_logs 7 now fs1 in
          (handle_errors r.2.1 r.1, r.2)
      end
  end.

End Cleanup.

(** ** Sample answers *)

(** Every call goes through. *)
Definition obliging : system :=
  {| makedirs_error := None; open_error := None; created := 0;
     listdir_error := None;
     getmtime_error := fun _ => None;
     fromtimestamp_error := fun _ => None;
     move_error := fun _ => None;
     move_residue := fun _ => None;
     print_error := fun _ => None;
     handler_text := fun _ => "";
     handler_time := 0 |}.

(** Every [shutil.move] raises [e], leaving [residue] in the archive. *)
Definition refusing_moves (e : string) (residue : option file) : system :=
  {| makedirs_error := None; open_error := None; created := 0;
     listdir_error := None;
     getmtime_error := fun _ => None;
     fromtimestamp_error := fun _ => None;
     move_error := fun _ => Some e;
     move_residue := fun _ => residue;
     print_error := fun _ => None;
     handler_text := fun msgs => String.concat "" msgs;
     handler_time := 1 |}.

End LoggerUtility.

(** * Simulator.py *)

Module Simulator.

(** ** Python's [int(str)] in base 10

    [int] first maps the text to ASCII: a text that is ASCII already is
    taken as it is; in any other, every character of Unicode's white space
    becomes a blank and every decimal digit of any script its ASCII digit,
    and the text is cut at the first other character beyond ASCII, which
    becomes a question mark ([_PyUnicode_TransformDecimalAndSpaceToASCII]).
    The ASCII text is then read by [PyLong_FromString]: surrounding white
    space dropped, an optional sign, then decimal digits in which single
    underscores may separate digits; anything else, and more than 4300
    digits, is a [ValueError] ([None] here). *)

Definition byte (c : ascii) : Z := Z.of_N (N_of_ascii c).

Definition continuation (c : ascii) : bool :=
  (128 <=? byte c) && (byte c <=? 191).

(** The second byte of a three-byte sequence that starts with [b0]: no
    overlong form and no surrogate. *)
Definition second_of_three (b0 : Z) (c1 : ascii) : bool :=
  if b0 =? 224 then (160 <=? byte c1) && (byte c1 <=? 191)
  else if b0 =? 237 then (128 <=? byte c1) && (byte c1 <=? 159)
  else continuation c1.

(** The second byte of a four-byte sequence that starts with [b0]: no
    overlong form and nothing beyond U+10FFFF. *)
Definition second_of_four (b0 : Z) (c1 : ascii) : bool :=
  if b0 =? 240 then (144 <=? byte c1) && (byte c1 <=? 191)
  else if b0 =? 244 then (128 <=? byte c1) && (byte c1 <=? 143)
  else continuation c1.

(** The code points of a text as [os.getenv] delivers it: UTF-8 decoded, a
    byte [b] that is not part of a well-formed sequence standing for the
    lone surrogate [U+DC00 + b] (the surrogateescape error handler). *)
Fixpoint utf8_decode (s : string) : list Z :=
  match s with
  | EmptyString => []
  | String c0 r0 =>
      let b0 := byte c0 in
      let escaped := (56320 + b0) :: utf8_decode r0 in
      if b0 <? 128 then b0 :: utf8_decode r0
      else
        match r0 with
        | String c1 r1 =>
            if (194 <=? b0) && (b0 <=? 223) then
              if continuation c1
              then ((b0 - 192) * 64 + (byte c1 - 128)) :: utf8_decode r1
              else escaped
            else
              match r1 with
              | String c2 r2 =>
                  if (224 <=? b0) && (b0 <=? 239) then
                    if second_of_three b0 c1 && continuation c2
                    then ((b0 - 224) * 4096 + (byte c1 - 128) * 64
                          + (byte c2 - 128)) :: utf8_decode r2
                    else escaped
                  else
                    match r2 with
                    | String c3 r3 =>
                        if (240 <=? b0) && (b0 <=? 244)
                           && second_of_four b0 c1
                           && continuation c2 && continuation c3
                        then ((b0 - 240) * 262144 + (byte c1 - 128) * 4096
                              + (byte c2 - 128) * 64 + (byte c3 - 128))
                             :: utf8_decode r3
                        else escaped
                    | EmptyString => escaped
                    end
              | EmptyString => escaped
              end
        | EmptyString => escaped
        end
  end.

(** [Py_UNICODE_ISSPACE] beyond ASCII. *)
Definition unicode_isspace (ch : Z) : bool :=
  bool_decide (ch ∈ [133; 160; 5760; 8232; 8233; 8239; 8287; 12288])
  || (8192 <=? ch) && (ch <=? 8202).

(** The digit zero of every script with decimal digits beyond ASCII
    (general category Nd; Unicode 14.0, the database of CPython 3.11): the
    nine code points after each are its digits one to nine. *)
Definition DECIMAL_ZEROS : list Z :=
  [1632; 1776; 1984; 2406; 2534; 2662; 2790; 2918; 3046; 3174; 3302;
    3430; 3558; 3664; 3792; 3872; 4160; 4240; 6112; 6160; 6470; 6608;
    6784; 6800; 6992; 7088; 7232; 7248; 42528; 43216; 43264; 43472; 43504;
    43600; 44016; 65296; 66720; 68912; 69734; 69872; 69942; 70096; 70384;
    70736; 70864; 71248; 71360; 71472; 71904; 72016; 72784; 73040; 73120;
    92768; 92864; 93008; 120782; 120792; 120802; 120812; 120822; 123200;
    123632; 125264; 130032].

(** [Py_UNICODE_TODECIMAL] beyond ASCII. *)
Definition unicode_todecimal (ch : Z) : option Z :=
  (fun zero => ch - zero)
    <$> find (fun zero => (zero <=? ch) && (ch <? zero + 10)) DECIMAL_ZEROS.

Definition ascii_of (ch : Z) : ascii := ascii_of_N (Z.to_N ch).

(** [_PyUnicode_TransformDecimalAndSpaceToASCII] on a text that is not
    ASCII. *)
Fixpoint transform_decimal_and_space (chars : list Z) : string :=
  match chars with
  | [] => EmptyString
  | ch :: rest =>
      if ch <? 127 then String (ascii_of ch) (transform_decimal_and_space rest)
      else if unicode_isspace ch
      then String " " (transform_decimal_and_space rest)
      else
        match unicode_todecimal ch with
        | Some d => String (ascii_of (48 + d)) (transform_decimal_and_space rest)
        | None => "?"
        end
  end.

Definition is_ascii (s : string) : bool :=
  forallb (fun c => byte c <? 128) (list_ascii_of_string s).

(** [Py_ISSPACE] *)
Definition is_space (c : ascii) : bool :=
  let n := nat_of_ascii c in
  ((9 <=? n) && (n <=? 13) || (n =? 32))%nat.

Fixpoint lstrip (s : string) : string :=
  match s with
  | String c r => if is_space c then lstrip r else s
  | EmptyString => s
  end.

Definition strip (s : string) : string :=
  String.rev (lstrip (String.rev (lstrip s))).

Definition digit_value (c : ascii) : option Z :=
  let n := nat_of_ascii c in
  if ((48 <=? n) && (n <=? 57))%nat then Some (Z.of_nat n - 48) else None.

Definition MAX_STR_DIGITS : nat := 4300.

(** The digits after the sign: [after_underscore] tells that the previous
    character was an underscore, [acc] is the value read so far and
    [ndigits] the number of digits read. *)
Fixpoint parse_digits (after_underscore : bool) (acc : Z) (ndigits : nat)
    (s : string) : option (Z * nat) :=
  match s with
  | EmptyString => if after_underscore then None else Some (acc, ndigits)
  | String c r =>
      if Ascii.eqb c "_" then
        if after_underscore then None else parse_digits true acc ndigits r
      else
        match digit_value c with
        | Some d => parse_digits false (10 * acc + d) (S ndigits) r
        | None => None
        end
  end.

Definition parse_unsigned (s : string) : option Z :=
  match s with
  | EmptyString => None
  | String c _ =>
      if Ascii.eqb c "_" then None
      else
        match parse_digits false 0 0 s with
        | Some (n, ndigits) =>
            if (ndigits <=? MAX_STR_DIGITS)%nat then Some n else None
        | None => None
        end
  end.

(** [PyLong_FromString] in base 10, on the ASCII text. *)
Definition long_from_string (s : string) : option Z :=
  match strip s with
  | String "+" r => parse_unsigned r
  | String "-" r => Z.opp <$> parse_unsigned r
  | r => parse_unsigned r
  end.

Definition int_of_str (s : string) : option Z :=
  long_from_string
    (if is_ascii s then s else transform_decimal_and_space (utf8_decode s)).

(** ** Python's [round(x, 2)] on a float

    The exact value of a finite float is [m * 2^e]; [round] takes the
    nearest multiple of 0.01 (ties to the even multiple) and returns the
    float nearest to that decimal, as CPython does through its correctly
    rounded float-to-decimal and decimal-to-float conversions.  Zeros,
    infinities and NaN round to themselves. *)

(** Nearest integer to [n / d] for [d > 0], ties to even. *)
Definition round_half_even (n d : Z) : Z :=
  let q := n / d in
  let r := n mod d in
  match 2 * r ?= d with
  | Lt => q
  | Gt => q + 1
  | Eq => if Z.even q then q else q + 1
  end.

(** The number of hundredths nearest to [m * 2^e]. *)
Definition hundredths (m : positive) (e : Z) : Z :=
  if 0 <=? e then Z.pos m * 2 ^ e * 100
  else round_half_even (Z.pos m * 100) (2 ^ (- e)).

(** The float nearest to [k / 100] (ties to even), with sign [s]: below
    [2^53] the integer [k] is a float and the IEEE division rounds
    correctly; above, the division is done on the exact integers. *)
Definition float_of_hundredths (s : bool) (k : Z) : float :=
  match k with
  | Z.pos p =>
      if k <? 9007199254740992 then
        let r := (PrimFloat.of_uint63 (Uint63.of_Z k) / 100)%float in
        if s then (- r)%float else r
      else
        SF2Prim (SFdiv prec emax (S754_finite s p 0) (S754_finite false 100 0))
  | _ => SF2Prim (S754_zero s)
  end.

Definition round2 (x : float) : float :=
  match Prim2SF x with
  | S754_finite s m e => float_of_hundredths s (hundredths m e)
  | _ => x
  end.

(** ** The logger *)

Inductive level := DEBUG | INFO | WARNING | ERROR | CRITICAL.

Definition levelno (l : level) : Z :=
  match l with
  | DEBUG => 10 | INFO => 20 | WARNING => 30 | ERROR => 40 | CRITICAL => 50
  end.

(** [LOG_LEVEL = logging.INFO] in logger_utility.py. *)
Definition LOG_LEVEL : level := INFO.

Record log_record := LogRecord { levelname : level; message : string }.

(** ** Documents and the store *)

Record customer := Customer {
  customer_id : string;
  name : string;
  state : string;
  policy_type : string;
  timestamp : Z
}.

Record claim := Claim {
  claim_id : string;
  claim_customer_id : string;   (* the key "customer_id" of the claim *)
  date : string;
  amount : float;
  claim_type : string;
  is_fraud : bool;
  status : string
}.

Record store := Store { customers : list customer; claims : list claim }.

(** A collection handle: the database and the collection it names. *)
Record collection := Collection { database : string; collection_name : string }.

(** ** The world the process acts on *)

(** The file system is not part of it: once the logger is set up, the
    program touches the log directory only through the logger's file
    handler, which appends every record of [logged] to the day's file. *)
Record world := World {
  logged : list log_record;        (* records handed to the logger's handlers:
                                      the day's file and the console (stderr) *)
  stdout : list string;            (* lines printed *)
  connect_attempts : list string;  (* URIs handed to pymongo.MongoClient *)
  db : store
}.

(** ** A state and exception monad

    [Running] is the outcome of a computation that has not come back within
    the observed ticks: the [while True] loop of [run_simulation]. *)
Inductive outcome (A : Type) :=
  | Return (a : A)
  | Raise (e : exn)
  | Running.
Arguments Return {A} a.
Arguments Raise {A} e.
Arguments Running {A}.

Definition M (A : Type) : Type := world -> outcome A * world.

Definition ret {A} (a : A) : M A := fun w => (Return a, w).
Definition raise {A} (e : exn) : M A := fun w => (Raise e, w).
Definition running {A} : M A := fun w => (Running, w).

Definition bind {A B} (m : M A) (k : A -> M B) : M B :=
  fun w =>
    match m w with
    | (Return a, w') => k a w'
    | (Raise e, w') => (Raise e, w')
    | (Running, w') => (Running, w')
    end.

#[global] Instance M_ret : MRet M := @ret.
#[global] Instance M_bind : MBind M := fun A B k m => bind m k.

(** [try: m  except ...: h]: [h e] is the handler of the first clause that
    matches [e], [None] when no clause does. *)
Definition try_except {A} (m : M A) (h : exn -> option (M A)) : M A :=
  fun w =>
    match m w with
    | (Raise e, w') =>
        match h e with
        | Some k => k w'
        | None => (Raise e, w')
        end
    | r => r
    end.

(** [try: m  finally: f] *)
Definition try_finally {A} (m : M A) (f : M unit) : M A :=
  fun w =>
    match m w with
    | (Running, w') => (Running, w')
    | (r, w') =>
        match f w' with
        | (Return _, w'') => (r, w'')
        | (Raise e, w'') => (Raise e, w'')
        | (Running, w'') => (Running, w'')
        end
    end.

(** [logger.<level>(msg)]: the record is emitted when the level passes
    [LOG_LEVEL]. *)
Definition log (l : level) (msg : string) : M unit :=
  fun w =>
    (Return tt,
     if levelno LOG_LEVEL <=? levelno l
     then World (logged w ++ [LogRecord l msg]) (stdout w)
                (connect_attempts w) (db w)
     else w).

(** ** load_configuration *)

(** [int(os.getenv("SLEEP_TIME", 5))]: the default 5 is already an [int]. *)
Definition int_of_getenv (v : option string) : M Z :=
  match v with
  | None => ret 5
  | Some s =>
      match int_of_str s with
      | Some n => ret n
      | None => raise (ValueError ("invalid literal for int() with base 10: '" +:+ s +:+ "'"))
      end
  end.

(** [environ] is the process environment after [load_dotenv()]. *)
Definition load_configuration (environ : gmap string string)
    : M (string * Z * string) :=
  let mongo_uri := environ !! "MONGO_URI" in
  let db_name := default "insurance-pipeline" (environ !! "MONGO_DB_NAME") in
  sleep_time ←
    try_except (int_of_getenv (environ !! "SLEEP_TIME"))
      (fun e =>
         match e with
         | ValueError _ =>
             Some (log WARNING "SLEEP_TIME in .env is not an integer. Defaulting to 5 seconds.";;
                   ret 5)
         | _ => None
         end);
  match mongo_uri with
  | None | Some "" =>
      log CRITICAL "MONGO_URI environment variable is not set. Please check your .env file.";;
      raise (ValueError "MONGO_URI environment variable is not set.")
  | Some uri =>
      log INFO "Configuration loaded successfully.";;
      log DEBUG ("DB Name: " +:+ db_name +:+ ", Sleep Time: " +:+ pretty sleep_time +:+ "s");;
      ret (uri, sleep_time, db_name)
  end.


Definition MONGO_URI_UNSET : exn :=
  ValueError "MONGO_URI environment variable is not set.".

Definition DEFAULT_DB_NAME : string := "insurance-pipeline".

(** ** setup_mongo_connection *)

(** [pymongo.MongoClient(mongo_uri, serverSelectionTimeoutMS=5000)] and the
    [ismaster] command: the attempt is recorded, and comes back or raises
    as the store answers ([answer]). *)
Definition connect (answer : option exn) (mongo_uri : string) : M unit :=
  fun w =>
    let w' := World (logged w) (stdout w)
                    (connect_attempts w ++ [mongo_uri]) (db w) in
    match answer with
    | None => (Return tt, w')
    | Some e => (Raise e, w')
    end.

(** [s] holds the character [c]. *)
Definition contains (c : ascii) (s : string) : bool :=
  existsb (Ascii.eqb c) (list_ascii_of_string s).

(** The characters pymongo refuses in a database name, each with its
    [repr]: blank, dot, dollar, slash, backslash, NUL and the double
    quote. *)
Definition INVALID_DATABASE_CHARS : list (ascii * string) :=
  [ (" "%char, "' '"); ("."%char, "'.'"); ("$"%char, "'$'");
    ("/"%char, "'/'"); ("\"%char, "'\\'"); ("000"%char, "'\x00'");
    ("034"%char, "'" +:+ String "034" "'") ].

(** pymongo's [_check_name] *)
Definition check_name (name : string) : option exn :=
  if String.eqb name "" then
    Some (InvalidName "database name cannot be the empty string")
  else
    (fun p => InvalidName ("database names cannot contain the character " +:+ p.2))
      <$> find (fun p => contains p.1 name) INVALID_DATABASE_CHARS.

(** [client[db_name]]: pymongo's [Database] checks the name, and makes no
    call to the server. *)
Definition get_database (db_name : string) : M string :=
  if String.eqb db_name "$external" then ret db_name
  else
    match check_name db_name with
    | Some e => raise e
    | None => ret db_name
    end.

Definition setup_mongo_connection (answer : option exn)
    (mongo_uri db_name : string) : M (collection * collection) :=
  log INFO "Attempting to connect to MongoDB Atlas...";;
  try_except
    (connect answer mongo_uri;;
     log INFO "Successfully connected to MongoDB Atlas.";;
     db ← get_database db_name;
     ret (Collection db "customers", Collection db "claims"))
    (fun e =>
       match e with
       | ConnectionFailure _ =>
           Some (log CRITICAL ("Connection error: Could not connect to MongoDB Atlas. Check your MONGO_URI and network status. Error: " +:+ exn_str e);;
                 raise e)
       | KeyboardInterrupt => None
       | _ =>
           Some (log CRITICAL ("An unexpected critical error occurred during MongoDB connection: " +:+ exn_str e);;
                 raise e)
       end).

(** ** generate_insurance_data *)

(** What one call draws from [random], [Faker] and the clock, in the order
    of the source. *)
Record rng_draws := Draws {
  customer_number : Z;      (* random.randint(100, 999) *)
  fake_name : string;       (* fake.name() *)
  fake_state_abbr : string; (* fake.state_abbr() *)
  policy_index : nat;       (* the index random.choice picks among 3 *)
  clock : Z;                (* datetime.now() *)
  claim_number : Z;         (* random.randint(1000, 9999) *)
  fake_date : string;       (* fake.date_between(...).isoformat() *)
  uniform_sample : float;   (* random.uniform(100, 20000) *)
  claim_type_index : nat;   (* the index random.choice picks among 4 *)
  random_sample : float     (* random.random() *)
}.




(** [P] on the [2 ^ depth] integers from [lo] on, by halving. *)
Fixpoint all_from (P : Z -> bool) (depth : nat) (lo : Z) : bool :=
  match depth with
  | O => P lo
  | S d => all_from P d lo && all_from P d (lo + 2 ^ Z.of_nat d)
  end.


(** [random.choice(seq)] with the index it picked. *)
Definition choice (seq : list string) (i : nat) : string := nth i seq "".

Definition POLICY_TYPES : list string := ["Auto"; "Home"; "Health"].
Definition CLAIM_TYPES : list string := ["Accident"; "Theft"; "Fire"; "Liability"].

Definition generate_insurance_data (d : rng_draws) : M (customer * claim) :=
  let customer_id := "CUST-" +:+ pretty (customer_number d) in
  let customer :=
    {| customer_id := customer_id;
       name := fake_name d;
       state := fake_state_abbr d;
       policy_type := choice POLICY_TYPES (policy_index d);
       timestamp := clock d |} in
  let claim :=
    {| claim_id := "CLM-" +:+ pretty (claim_number d);
       claim_customer_id := customer_id;
       date := fake_date d;
       amount := round2 (uniform_sample d);
       claim_type := choice CLAIM_TYPES (claim_type_index d);
       is_fraud := PrimFloat.ltb (random_sample d) 0x1.999999999999ap-5;  (* 0.05 *)
       status := "Submitted" |} in
  log DEBUG ("Generated data for CUST:" +:+ customer_id +:+ " and CLM:" +:+ claim_id claim);;
  ret (customer, claim).

(** ** run_simulation *)

(** The store's answer to an [insert_one]: acknowledged, or an exception,
    with [written] telling whether the document reached the collection all
    the same (as it may under a write-concern failure).  The [_id] that
    [insert_one] adds to the dict plays no part here and is left out. *)
Inductive insert_answer :=
  | Acknowledged
  | Failed (e : exn) (written : bool).

Definition set_db (s : store) (w : world) : world :=
  World (logged w) (stdout w) (connect_attempts w) s.

Definition insert_customer (a : insert_answer) (c : customer) : M unit :=
  fun w =>
    let w' := set_db (Store (customers (db w) ++ [c]) (claims (db w))) w in
    match a with
    | Acknowledged => (Return tt, w')
    | Failed e written => (Raise e, if written then w' else w)
    end.

Definition insert_claim (a : insert_answer) (c : claim) : M unit :=
  fun w =>
    let w' := set_db (Store (customers (db w)) (claims (db w) ++ [c])) w in
    match a with
    | Acknowledged => (Return tt, w')
    | Failed e written => (Raise e, if written then w' else w)
    end.

(** [col.count_documents({})] *)
Definition count_documents {A} (a : option exn) (col : store -> list A) : M Z :=
  fun w =>
    match a with
    | None => (Return (Z.of_nat (length (col (db w)))), w)
    | Some e => (Raise e, w)
    end.

(** [time.sleep(secs)] for an [int]: seconds that do not fit a signed
    64-bit count of nanoseconds are an [OverflowError], negative ones a
    [ValueError]; [signal] is what arrives while the process sleeps. *)
Definition time_sleep (secs : Z) (signal : option exn) : M unit :=
  if (secs <? -9223372036) || (9223372036 <? secs) then
    raise (OverflowError "timestamp too large to convert to C _PyTime_t")
  else if secs <? 0 then
    raise (ValueError "sleep length must be non-negative")
  else
    match signal with
    | Some e => raise e
    | None => ret tt
    end.

(** What the outside does during one tick, call by call. *)
Record tick := Tick {
  generate_signal : option exn;       (* raised inside generate_insurance_data *)
  draws : rng_draws;
  customer_answer : insert_answer;
  claim_answer : insert_answer;
  customer_count_answer : option exn;
  claim_count_answer : option exn;
  sleep_signal : option exn           (* raised while in time.sleep *)
}.

(** Step 2 to 4 of the loop body: the inner [try] with its handlers. *)
Definition insert_block (t : tick) (customer : customer) (claim : claim) : M unit :=
  try_except
    (insert_customer (customer_answer t) customer;;
     insert_claim (claim_answer t) claim;;
     log INFO ("-> Inserted claim " +:+ claim_id claim +:+ " for customer "
               +:+ customer_id customer +:+ " (" +:+ policy_type customer +:+ ")");;
     customer_count ← count_documents (customer_count_answer t) customers;
     claim_count ← count_documents (claim_count_answer t) claims;
     log INFO ("Customer Count == " +:+ pretty customer_count);;
     log INFO ("Claim Count == " +:+ pretty claim_count))
    (fun e =>
       match e with
       | DuplicateKeyError _ =>
           Some (log WARNING ("Duplicate key error detected (likely customer ID collision). Skipping insertion. Error: " +:+ exn_str e))
       | WriteConcernError _ =>
           Some (log ERROR ("MongoDB Write Concern Error: Data insertion might not be fully confirmed. Error: " +:+ exn_str e))
       | KeyboardInterrupt => None
       | _ =>
           Some (log ERROR ("Failed to insert data into MongoDB due to an unknown error: " +:+ exn_str e))
       end).

(** The record the handlers of the inner [try] log for an exception, named
    for the statements below; [KeyboardInterrupt] has no handler there. *)
Definition insert_failure_record (e : exn) : option log_record :=
  match e with
  | DuplicateKeyError _ =>
      Some (LogRecord WARNING ("Duplicate key error detected (likely customer ID collision). Skipping insertion. Error: " +:+ exn_str e))
  | WriteConcernError _ =>
      Some (LogRecord ERROR ("MongoDB Write Concern Error: Data insertion might not be fully confirmed. Error: " +:+ exn_str e))
  | KeyboardInterrupt => None
  | _ =>
      Some (LogRecord ERROR ("Failed to insert data into MongoDB due to an unknown error: " +:+ exn_str e))
  end.

(** [time.sleep(secs)] takes [secs] without raising. *)
Definition sleep_accepts (secs : Z) : bool :=
  (0 <=? secs) && (secs <=? 9223372036).

(** One pass through the body of [while True]. *)
Definition tick_body (sleep_time : Z) (t : tick) : M unit :=
  pair ←
    match generate_signal t with
    | Some e => raise e
    | None => generate_insurance_data (draws t)
    end;
  insert_block t pair.1 pair.2;;
  time_sleep sleep_time (sleep_signal t).

(** [while True: ...] over the ticks observed; the loop is still running
    when they are used up. *)
Fixpoint simulation_loop (sleep_time : Z) (ticks : list tick) : M unit :=
  match ticks with
  | [] => running
  | t :: rest => tick_body sleep_time t;; simulation_loop sleep_time rest
  end.

Definition run_simulation (customers_col claims_col : collection)
    (sleep_time : Z) (ticks : list tick) : M unit :=
  log INFO ("Starting real-time simulation. Inserting data every "
            +:+ pretty sleep_time +:+ " seconds...");;
  try_except (simulation_loop sleep_time ticks)
    (fun e =>
       match e with
       | KeyboardInterrupt =>
           Some (log INFO "Simulation stopped by user (Ctrl+C). Exiting.")
       | _ =>
           Some (log CRITICAL ("A critical error occurred during the simulation loop: " +:+ exn_str e))
       end).

(** The record [run_simulation] logs on [KeyboardInterrupt], named for the
    statements below. *)
Definition STOPPED_BY_USER : log_record :=
  LogRecord INFO "Simulation stopped by user (Ctrl+C). Exiting.".

(** ** The script: [if __name__ == "__main__"] *)

(** Everything outside the process that a run depends on. *)
Record process := Process {
  today : string;                      (* the date text in LOG_FILENAME *)
  now : Z;                             (* the clock when the clean-up reads it *)
  initial_files : LoggerUtility.filesystem;
  sys : LoggerUtility.system;          (* the operating system's answers *)
  environ : gmap string string;
  connect_answer : option exn;
  ticks : list tick;
  initial_db : store
}.

Definition STARTING : string := "--- Insurance Data Simulator Application Starting ---".
Definition TERMINATED : string := "--- Insurance Data Simulator Application Terminated ---".

(** The records and lines the log clean-up wrote. *)
Definition cleanup_records (out : list LoggerUtility.output) : list log_record :=
  omap (fun o => match o with
                 | LoggerUtility.LoggedError m => Some (LogRecord ERROR m)
                 | LoggerUtility.Printed _ => None
                 end) out.

Definition cleanup_lines (out : list LoggerUtility.output) : list string :=
  omap (fun o => match o with
                 | LoggerUtility.Printed l => Some l
                 | LoggerUtility.LoggedError _ => None
                 end) out.

(** The [try] block of the script. *)
Definition application (p : process) : M unit :=
  cfg ← load_configuration (environ p);
  cols ← setup_mongo_connection (connect_answer p) cfg.1.1 cfg.2;
  run_simulation cols.1 cols.2 cfg.1.2 (ticks p).

(** [logger = setup_logger()] stands before the [try]: what it raises
    ends the script there. *)
Definition main (p : process) : outcome unit * world :=
  let r := LoggerUtility.setup_logger (today p) (sys p) (now p)
             (initial_files p) in
  let w1 := World (cleanup_records r.2.1) (cleanup_lines r.2.1) []
              (initial_db p) in
  match r.2.2 with
  | Some e => (Raise e, w1)
  | None =>
      (log INFO STARTING;;
       try_finally
         (try_except (application p)
            (fun e =>
               match e with
               | ValueError _ =>
                   Some (log CRITICAL ("Application terminated due to Configuration Error: " +:+ exn_str e))
               | ConnectionFailure _ =>
                   Some (log CRITICAL "Application terminated due to MongoDB connection failure.")
               | KeyboardInterrupt => None
               | _ =>
                   Some (log CRITICAL ("A fatal and unhandled error occurred during application setup: " +:+ exn_str e))
               end))
         (log INFO TERMINATED)) w1
  end.

(** ** Sample inputs *)

Definition sample_draws : rng_draws :=
  {| customer_number := 123; fake_name := "Ann Lee"; fake_state_abbr := "CA";
     policy_index := 1; clock := 1715300000000000;
     claim_number := 4567; fake_date := "2024-03-01";
     uniform_sample := 0x1.34a449ba5e354p+10;  (* 1234.567 *)
     claim_type_index := 2;
     random_sample := 0.5 |}.

Definition sample_tick (customer_answer claim_answer : insert_answer)
    (sleep_signal : option exn) : tick :=
  Tick None sample_draws customer_answer claim_answer None None sleep_signal.

Definition sample_environ : gmap string string :=
  {[ "MONGO_URI" := "mongodb://db.example:27017"; "SLEEP_TIME" := "0" ]}.

(** A system in which only [os.makedirs] may fail. *)
Definition sample_system (makedirs_error : option string) : LoggerUtility.system :=
  LoggerUtility.System makedirs_error None 1715300000000000 None
    (fun _ => None) (fun _ => None) (fun _ => None) (fun _ => None)
    (fun _ => None) (fun _ => "") 1715300000000000.

Definition sample_process (makedirs_error : option string)
    (environ : gmap string string) (connect_answer : option exn)
    (ticks : list tick) : process :=
  {| today := "2024-05-10"; now := 1715300000000000;
     initial_files := LoggerUtility.Fs ∅ ∅;
     sys := sample_system makedirs_error;
     environ := environ; connect_answer := connect_answer;
     ticks := ticks; initial_db := Store [] [] |}.

Definition empty_world : world :=
  World [] [] [] (Store [] []).

(** ** Relations between worlds, for the invariants of the loop *)

(** [w'] has everything [w] has, in the same order: log records and
    documents are only ever appended. *)
Definition extends (w w' : world) : Prop :=
  logged w `prefix_of` logged w'
  /\ customers (db w) `prefix_of` customers (db w')
  /\ claims (db w) `prefix_of` claims (db w').

(** Nothing but the log and the store differs. *)
Definition same_outside (w w' : world) : Prop :=
  connect_attempts w' = connect_attempts w /\ stdout w' = stdout w.

(** [m] takes every world to one related to it by [R]. *)
Definition keeps {A} (R : world -> world -> Prop) (m : M A) : Prop :=
  forall w, R w (m w).2.

(** A tick in which nothing fails and no signal arrives. *)
Definition quiet_tick (t : tick) : bool :=
  match generate_signal t, customer_answer t, claim_answer t,
        customer_count_answer t, claim_count_answer t, sleep_signal t with
  | None, Acknowledged, Acknowledged, None, None, None => true
  | _, _, _, _, _, _ => false
  end.

(** What an [insert_one] raises. *)
Definition raised_by (a : insert_answer) : option exn :=
  match a with
  | Acknowledged => None
  | Failed e _ => Some e
  end.

(** The first exception raised inside the inner [try] of a tick, the calls
    taken in the order of the source: the two inserts, then the two
    counts. *)
Definition first_raised (t : tick) : option exn :=
  match raised_by (customer_answer t) with
  | Some e => Some e
  | None =>
      match raised_by (claim_answer t) with
      | Some e => Some e
      | None =>
          match customer_count_answer t with
          | Some e => Some e
          | None => claim_count_answer t
          end
      end
  end.


(** An interrupt signal arrives during a tick, at a call the loop body
    gets to: in the generator; in an insert or a count before any of them
    has failed; or in the pacing sleep, once the generator has returned and
    [time.sleep] has taken the interval. *)
Definition interrupt_arrives (sleep_time : Z) (t : tick) : bool :=
  match generate_signal t with
  | Some e => negb (is_Exception e)
  | None =>
      match first_raised t with
      | Some KeyboardInterrupt => true
      | _ =>
          sleep_accepts sleep_time
          && match sleep_signal t with
             | Some KeyboardInterrupt => true
             | _ => false
             end
      end
  end.

(** Texts made of decimal digits only. *)
Definition all_digits (s : string) : bool :=
  forallb (fun c => bool_decide (is_Some (digit_value c)))
    (list_ascii_of_string s).

(** The decimal text of [n] has [len] characters, all digits, for [n] up to
    [hi]. *)
Definition decimal_ok (len : nat) (hi : Z) (n : Z) : bool :=
  (hi <? n)
  || (String.length (pretty n) =? len)%nat && all_digits (pretty n)
     && bool_decide (int_of_str (pretty n) = Some n).

End Simulator.

(** * Properties of the log clean-up *)

Import LoggerUtility.

Lemma endswith_archive_name : endswith ARCHIVE_NAME ".log" = false.
Proof. reflexivity. Qed.

(** The cutoff, when there is one, is [now] minus the days. *)
Lemma cutoff_date_inr (days_to_keep now c : Z) :
  cutoff_date days_to_keep now = inr c -> c = now - timedelta_days days_to_keep.
Proof.
  unfold cutoff_date. intros H.
  destruct (_ || _); [done|].
  destruct (999999999 <? Z.abs days_to_keep); [done|].
  destruct (_ && _); by simplify_eq.
Qed.

Section CleanupFacts.

Variable today : string.
Variable sys : system.
Variable cutoff_date : Z.

Abbreviation step := (cleanup_step today sys cutoff_date).
Abbreviation attempted := (move_attempted today sys cutoff_date).
Abbreviation stale := (archivable today sys cutoff_date).
Abbreviation put := (archived today sys cutoff_date).

(** The three tests read the file system at one name only. *)
Lemma move_attempted_ext fs1 fs2 n :
  log_dir fs1 !! n = log_dir fs2 !! n -> attempted fs1 n = attempted fs2 n.
Proof. intros H. unfold move_attempted. by rewrite H. Qed.

Lemma archivable_ext fs1 fs2 n :
  log_dir fs1 !! n = log_dir fs2 !! n -> stale fs1 n = stale fs2 n.
Proof. intros H. unfold archivable. by rewrite (move_attempted_ext _ _ _ H). Qed.

Lemma archived_ext fs1 fs2 n :
  log_dir fs1 !! n = log_dir fs2 !! n -> put fs1 n = put fs2 n.
Proof.
  intros H. unfold archived.
  by rewrite (archivable_ext _ _ _ H), (move_attempted_ext _ _ _ H), H.
Qed.

Lemma move_attempted_absent fs n :
  log_dir fs !! n = None -> attempted fs n = false.
Proof. intros H. unfold move_attempted. rewrite H. apply andb_false_r. Qed.

Lemma archivable_absent fs n : log_dir fs !! n = None -> stale fs n = false.
Proof. intros H. unfold archivable. by rewrite move_attempted_absent. Qed.

Lemma archived_absent fs n : log_dir fs !! n = None -> put fs n = None.
Proof.
  intros H. unfold archived.
  by rewrite archivable_absent, move_attempted_absent.
Qed.

(** An archivable entry is there, and its move is attempted. *)
Lemma archivable_attempted fs n : stale fs n = true -> attempted fs n = true.
Proof. unfold archivable. intros H. by apply andb_prop in H as [H _]. Qed.

Lemma archivable_present fs n : stale fs n = true -> is_Some (log_dir fs !! n).
Proof.
  intros H. destruct (log_dir fs !! n) eqn:Hf; [done|].
  by rewrite archivable_absent in H.
Qed.

(** One pass of the loop body on the file system: a move guarded by
    [archivable], or what a move that raised left behind. *)
Lemma cleanup_step_fs fs out n :
  (step (fs, out) n).1 =
    if stale fs n then
      match log_dir fs !! n with
      | Some f => Fs (delete n (log_dir fs)) (<[n := f]> (archive_dir fs))
      | None => fs
      end
    else if attempted fs n then
      match move_residue sys n with
      | Some g => Fs (log_dir fs) (<[n := g]> (archive_dir fs))
      | None => fs
      end
    else fs.
Proof.
  unfold cleanup_step, archivable, move_attempted, getmtime, fromtimestamp, move.
  destruct (endswith n ".log"); simpl; [|done].
  destruct (String.eqb n (LOG_FILENAME today)); simpl; [done|].
  destruct (getmtime_error sys n); simpl.
  { by destruct (log_dir fs !! n). }
  destruct (log_dir fs !! n) as [f|]; simpl; [|done].
  destruct (fromtimestamp_error sys (mtime f)); simpl; [done|].
  destruct (mtime f <? cutoff_date); simpl; [|done].
  destruct (move_error sys n); simpl.
  - by destruct (move_residue sys n).
  - by destruct (print_error sys _).
Qed.

Lemma cleanup_step_log_dir st n m :
  log_dir (step st n).1 !! m =
    if bool_decide (m = n) && stale st.1 n then None else log_dir st.1 !! m.
Proof.
  destruct st as [fs out]. rewrite cleanup_step_fs. simpl.
  destruct (stale fs n) eqn:Hs.
  - destruct (archivable_present fs n Hs) as [f Hf]. rewrite Hf. simpl.
    case_bool_decide; subst; simpl.
    + apply lookup_delete_eq.
    + by apply lookup_delete_ne.
  - rewrite andb_false_r.
    destruct (attempted fs n); [|done].
    by destruct (move_residue sys n).
Qed.

Lemma cleanup_step_archive_dir st n m :
  archive_dir (step st n).1 !! m =
    if bool_decide (m = n)
    then from_option Some (archive_dir st.1 !! n) (put st.1 n)
    else archive_dir st.1 !! m.
Proof.
  destruct st as [fs out]. rewrite cleanup_step_fs. unfold archived. simpl.
  destruct (stale fs n) eqn:Hs.
  - destruct (archivable_present fs n Hs) as [f Hf]. rewrite Hf. simpl.
    case_bool_decide; subst; simpl.
    + apply lookup_insert_eq.
    + by apply lookup_insert_ne.
  - destruct (attempted fs n).
    + destruct (move_residue sys n) as [g|]; simpl.
      * case_bool_decide; subst; simpl.
        -- apply lookup_insert_eq.
        -- by apply lookup_insert_ne.
      * by case_bool_decide; subst.
    + by case_bool_decide; subst.
Qed.

(** After one pass the entry just handled is no longer archivable, and the
    tests on every other entry are unchanged. *)
Lemma cleanup_step_archivable st n m :
  stale (step st n).1 m =
    if bool_decide (m = n) then false else stale st.1 m.
Proof.
  case_bool_decide as Hm.
  - subst m. destruct (stale st.1 n) eqn:Hs.
    + apply archivable_absent. rewrite cleanup_step_log_dir.
      by rewrite bool_decide_eq_true_2, Hs.
    + rewrite <- Hs. apply archivable_ext. rewrite cleanup_step_log_dir.
      by rewrite Hs, andb_false_r.
  - apply archivable_ext. rewrite cleanup_step_log_dir.
    by rewrite bool_decide_eq_false_2.
Qed.

Lemma cleanup_step_archived st n m :
  put (step st n).1 m =
    if bool_decide (m = n) && stale st.1 n then None else put st.1 m.
Proof.
  destruct (bool_decide (m = n) && stale st.1 n) eqn:Hc.
  - apply archived_absent. by rewrite cleanup_step_log_dir, Hc.
  - apply archived_ext. by rewrite cleanup_step_log_dir, Hc.
Qed.

(** The loop over any listing [l]: an entry is moved exactly when it is
    listed and archivable in the starting state, and the archive changes
    at the names listed only, whatever the order of the listing and however
    often a name occurs in it. *)
Lemma cleanup_fold_lookup l st m :
  log_dir (foldl step st l).1 !! m =
    (if bool_decide (m ∈ l) && stale st.1 m then None else log_dir st.1 !! m)
  /\ archive_dir (foldl step st l).1 !! m =
    (if bool_decide (m ∈ l)
     then from_option Some (archive_dir st.1 !! m) (put st.1 m)
     else archive_dir st.1 !! m).
Proof.
  revert st. induction l as [|n l IH]; intros st; simpl.
  - done.
  - destruct (IH (step st n)) as [IHl IHa].
    rewrite IHl, IHa, cleanup_step_archivable, cleanup_step_archived,
      cleanup_step_log_dir, cleanup_step_archive_dir.
    destruct (decide (m = n)) as [->|Hne].
    + rewrite (bool_decide_eq_true_2 (n = n)) by done.
      rewrite (bool_decide_eq_true_2 (n ∈ n :: l)) by left.
      rewrite andb_false_r. simpl. split; [done|].
      destruct (stale st.1 n) eqn:Hs; simpl.
      * by destruct (bool_decide (n ∈ l)).
      * destruct (bool_decide (n ∈ l)); [|done].
        by destruct (put st.1 n).
    + rewrite (bool_decide_eq_false_2 (m = n)) by done. simpl.
      replace (bool_decide (m ∈ n :: l)) with (bool_decide (m ∈ l)); [done|].
      apply bool_decide_ext. rewrite elem_of_cons.
      split; [by right | by intros [?|?]].
Qed.

(** Every entry of the directory is in its listing. *)
Lemma listdir_complete fs n f : log_dir fs !! n = Some f -> n ∈ listdir fs.
Proof.
  intros H. unfold listdir. right.
  apply list_elem_of_fmap. exists (n, f). split; [done|].
  by apply elem_of_map_to_list.
Qed.

(** The loop over the directory's own listing. *)
Lemma cleanup_loop_lookup fs m :
  log_dir (foldl step (fs, []) (listdir fs)).1 !! m =
    (if stale fs m then None else log_dir fs !! m)
  /\ archive_dir (foldl step (fs, []) (listdir fs)).1 !! m =
    from_option Some (archive_dir fs !! m) (put fs m).
Proof.
  destruct (cleanup_fold_lookup (listdir fs) (fs, []) m) as [Hl Ha].
  cbn [fst] in Hl, Ha. rewrite Hl, Ha.
  destruct (log_dir fs !! m) as [f|] eqn:Hf.
  - by rewrite bool_decide_eq_true_2 by (by eapply listdir_complete).
  - rewrite archivable_absent, archived_absent by done.
    rewrite andb_false_r. by destruct (bool_decide _).
Qed.

(** The active day's name is never archivable. *)
Lemma move_attempted_active fs : attempted fs (LOG_FILENAME today) = false.
Proof.
  unfold move_attempted. rewrite String.eqb_refl. simpl.
  by rewrite andb_false_r.
Qed.

Lemma archivable_active fs : stale fs (LOG_FILENAME today) = false.
Proof. unfold archivable. by rewrite move_attempted_active. Qed.

Lemma archived_active fs : put fs (LOG_FILENAME today) = None.
Proof.
  unfold archived. by rewrite archivable_active, move_attempted_active.
Qed.

End CleanupFacts.

Section CleanupOldLogs.

Variable today : string.
Variable sys : system.
Variables days_to_keep now : Z.

Abbreviation cutoff := (now - timedelta_days days_to_keep).
Abbreviation cleanup := (cleanup_old_logs today sys days_to_keep now).

(** A run that raises has touched nothing and written nothing. *)
Lemma cleanup_raised fs e :
  (cleanup fs).2.2 = Some e -> (cleanup fs).1 = fs /\ (cleanup fs).2.1 = [].
Proof.
  unfold cleanup_old_logs.
  destruct (cutoff_date days_to_keep now); [done|].
  by destruct (listdir_error sys).
Qed.


(** A run that returns is the loop over the listing, at the cutoff. *)
Lemma cleanup_returned fs :
  (cleanup fs).2.2 = None ->
  cutoff_date days_to_keep now = inr cutoff
  /\ listdir_error sys = None
  /\ (cleanup fs).1
     = (foldl (cleanup_step today sys cutoff) (fs, []) (listdir fs)).1
  /\ (cleanup fs).2.1
     = (foldl (cleanup_step today sys cutoff) (fs, []) (listdir fs)).2.
Proof.
  unfold cleanup_old_logs.
  destruct (cutoff_date days_to_keep now) as [e|c] eqn:Hc; [done|].
  apply cutoff_date_inr in Hc as ->.
  by destruct (listdir_error sys).
Qed.

Lemma cleanup_returns :
  cutoff_date days_to_keep now = inr cutoff -> listdir_error sys = None ->
  forall fs, (cleanup fs).2.2 = None.
Proof. intros Hc Hl fs. unfold cleanup_old_logs. by rewrite Hc, Hl. Qed.

(** What [cleanup_old_logs] leaves at each name of the two directories
    when it returns. *)
Lemma cleanup_fs_lookup fs m :
  (cleanup fs).2.2 = None ->
  log_dir (cleanup fs).1 !! m =
    (if archivable today sys cutoff fs m then None else log_dir fs !! m)
  /\ archive_dir (cleanup fs).1 !! m =
    from_option Some (archive_dir fs !! m) (archived today sys cutoff fs m).
Proof.
  intros H. apply cleanup_returned in H as (_ & _ & -> & _).
  apply cleanup_loop_lookup.
Qed.

(** A name that the loop would not archive is left alone in the log
    directory, whether the run returns or raises. *)
Lemma cleanup_keeps fs m :
  archivable today sys cutoff fs m = false ->
  log_dir (cleanup fs).1 !! m = log_dir fs !! m.
Proof.
  intros Hs. destruct ((cleanup fs).2.2) as [e|] eqn:Hr.
  - by apply cleanup_raised in Hr as [-> _].
  - destruct (cleanup_fs_lookup fs m Hr) as [-> _]. by rewrite Hs.
Qed.

(** A name at which no move would be attempted keeps its archive entry. *)
Lemma cleanup_keeps_archive fs m :
  move_attempted today sys cutoff fs m = false ->
  archive_dir (cleanup fs).1 !! m = archive_dir fs !! m.
Proof.
  intros Hs. destruct ((cleanup fs).2.2) as [e|] eqn:Hr.
  - by apply cleanup_raised in Hr as [-> _].
  - destruct (cleanup_fs_lookup fs m Hr) as [_ ->].
    unfold archived, archivable. by rewrite Hs.
Qed.

End CleanupOldLogs.


(** ** The claims about [cleanup_old_logs] *)

(** C1. Whatever the retention, the clock, the answers of the operating
    system (failures of [os.listdir], [os.path.getmtime] and [shutil.move]
    included) and the state of the two directories, [cleanup_old_logs]
    leaves the entry named [LOG_FILENAME] where it is: the log directory
    holds the same file under that name afterwards and the archive
    directory is unchanged at that name.  Nothing is assumed about the
    file's modification time, so this covers a backdated active file. *)
Theorem active_log_never_archived
    (today : string) (sys : system)
    (days_to_keep now : Z) (fs : filesystem) :
  log_dir (cleanup_old_logs today sys days_to_keep now fs).1
      !! LOG_FILENAME today
    = log_dir fs !! LOG_FILENAME today
  /\ archive_dir (cleanup_old_logs today sys days_to_keep now fs).1
      !! LOG_FILENAME today
    = archive_dir fs !! LOG_FILENAME today.
Proof.
  split.
  - apply cleanup_keeps, archivable_active.
  - apply cleanup_keeps_archive, move_attempted_active.
Qed.

(** A backdated active file and a stale neighbour: only the neighbour goes. *)
Example backdated_active_log_stays :
  let fs := Fs {[ LOG_FILENAME "2024-05-10" := File 0 "today";
                  "simulator_2024-04-01.log" := File 0 "old" ]} ∅ in
  let fs' := (cleanup_old_logs "2024-05-10" obliging 7
                (timedelta_days 30) fs).1 in
  log_dir fs' = {[ LOG_FILENAME "2024-05-10" := File 0 "today" ]}
  /\ archive_dir fs' = {[ "simulator_2024-04-01.log" := File 0 "old" ]}.
Proof. split; apply map_eq; intros k; vm_compute; reflexivity. Qed.

(** C2, as stated, fails: a file of the log directory that is not the
    active day's file and is older than the cutoff, but whose name does not
    end in ".log", stays in the log directory and does not reach the
    archive, in a run in which every call goes through. *)
Lemma stale_file_without_log_suffix_stays :
  let fs := Fs {[ "notes.txt" := File 0 "old" ]} ∅ in
  let r := cleanup_old_logs "2024-05-10" obliging 7 (timedelta_days 30) fs in
  log_dir fs !! "notes.txt" = Some (File 0 "old")
  /\ "notes.txt" <> LOG_FILENAME "2024-05-10"
  /\ mtime (File 0 "old") < timedelta_days 30 - timedelta_days 7
  /\ r.2 = ([], None)
  /\ log_dir r.1 !! "notes.txt" = Some (File 0 "old")
  /\ archive_dir r.1 !! "notes.txt" = None.
Proof. repeat split; try discriminate; vm_compute; reflexivity. Qed.

(** C2, amended. [cleanup_old_logs] moves into the archive directory every
    file of the log directory whose name ends in ".log", is not the active
    day's file name and whose last-modified time is before [now] minus
    [days_to_keep] days, provided that the run gets to its loop (the cutoff
    is a date and [os.listdir] lists the directory) and that nothing raises
    for the file: [os.path.getmtime] reads its time,
    [datetime.fromtimestamp] converts it and [shutil.move] moves it.
    Afterwards the name is gone from the log directory and the archive
    directory holds the file under it. *)
Theorem stale_log_files_are_archived
    (today : string) (sys : system)
    (days_to_keep now cutoff : Z) (fs : filesystem) (filename : string) (f : file) :
  cutoff_date days_to_keep now = inr cutoff ->
  listdir_error sys = None ->
  log_dir fs !! filename = Some f ->
  endswith filename ".log" = true ->
  filename <> LOG_FILENAME today ->
  getmtime_error sys filename = None ->
  fromtimestamp_error sys (mtime f) = None ->
  mtime f < now - timedelta_days days_to_keep ->
  move_error sys filename = None ->
  log_dir (cleanup_old_logs today sys days_to_keep now fs).1
      !! filename = None
  /\ archive_dir (cleanup_old_logs today sys days_to_keep now fs).1
      !! filename = Some f.
Proof.
  intros Hc Hlist Hf Hlog Hactive Hstat Hconv Hold Hmove.
  pose proof (cutoff_date_inr _ _ _ Hc) as ->.
  destruct (cleanup_fs_lookup today sys days_to_keep now fs filename
              (cleanup_returns today sys days_to_keep now Hc Hlist fs))
    as [Hl Ha].
  rewrite Hl, Ha. unfold archived.
  assert (archivable today sys (now - timedelta_days days_to_keep)
            fs filename = true) as ->; [|by rewrite Hf].
  unfold archivable, move_attempted.
  rewrite Hlog, Hf, Hstat, Hconv, Hmove. simpl.
  apply String.eqb_neq in Hactive. rewrite Hactive. simpl.
  rewrite andb_true_r. by apply Z.ltb_lt.
Qed.

Lemma stale_log_files_are_archived_witness :
  let fs := Fs {[ "simulator_2024-04-01.log" := File 0 "old" ]} ∅ in
  let fs' := (cleanup_old_logs "2024-05-10" obliging 7
                (timedelta_days 30) fs).1 in
  log_dir fs' !! "simulator_2024-04-01.log" = None
  /\ archive_dir fs' !! "simulator_2024-04-01.log" = Some (File 0 "old").
Proof.
  apply (stale_log_files_are_archived "2024-05-10" obliging 7
           (timedelta_days 30) (timedelta_days 23) _
           "simulator_2024-04-01.log" (File 0 "old")).
  - reflexivity.
  - reflexivity.
  - reflexivity.
  - reflexivity.
  - discriminate.
  - reflexivity.
  - reflexivity.
  - vm_compute. reflexivity.
  - reflexivity.
Defined.

(** A stale log file whose time cannot be read stays, with an error
    logged, though no move is refused. *)
Example unreadable_time_keeps_file :
  let fs := Fs {[ "simulator_2024-04-01.log" := File 0 "old" ]} ∅ in
  let sys := System None None 0 None
               (fun _ => Some "[Errno 2] No such file or directory")
               (fun _ => None) (fun _ => None) (fun _ => None)
               (fun _ => None) (fun _ => "") 0 in
  let r := cleanup_old_logs "2024-05-10" sys 7 (timedelta_days 30) fs in
  r.1 = fs
  /\ r.2 = ([LoggedError "Error during log cleanup for simulator_2024-04-01.log: [Errno 2] No such file or directory"], None).
Proof. vm_compute. done. Qed.

(** Conversely nothing else leaves the log directory: a file that is kept
    by the test stays. *)
Lemma kept_files_stay
    (today : string) (sys : system)
    (days_to_keep now : Z) (fs : filesystem) (filename : string) :
  archivable today sys (now - timedelta_days days_to_keep) fs filename
    = false ->
  log_dir (cleanup_old_logs today sys days_to_keep now fs).1
      !! filename = log_dir fs !! filename.
Proof. apply cleanup_keeps. Qed.




(** * Properties of the simulator *)

Import Simulator.

(** ** Logging leaves the rest of the world alone *)

Lemma log_returns l msg w :
  exists w', log l msg w = (Return tt, w')
    /\ logged w' = (if levelno LOG_LEVEL <=? levelno l
                    then logged w ++ [LogRecord l msg] else logged w)
    /\ stdout w' = stdout w
    /\ connect_attempts w' = connect_attempts w /\ db w' = db w.
Proof.
  unfold log. eexists. split; [reflexivity|].
  destruct (levelno LOG_LEVEL <=? levelno l); simpl; done.
Qed.

(** ** generate_insurance_data *)

(** C8. Every call of [generate_insurance_data] returns a customer and a
    claim (it never raises and leaves the store untouched), and the claim's
    [customer_id] is the customer's [customer_id]. *)
Theorem claim_links_to_its_customer (d : rng_draws) (w : world) :
  exists c cl,
    generate_insurance_data d w = (Return (c, cl), w)
    /\ claim_customer_id cl = customer_id c
    /\ customer_id c = "CUST-" +:+ pretty (customer_number d).
Proof.
  unfold generate_insurance_data. do 2 eexists.
  split; [|split]; [reflexivity| |]; reflexivity.
Qed.

(** ** load_configuration *)

(** C4. The code departs from the claim at a negative integer: the text
    "-3" is not a non-negative integer, yet [load_configuration] returns it
    as the sleep time, -3 and not 5, and logs no warning.  The comment in
    the source promises the default for a value that is "not set or
    invalid", and [time.sleep] refuses a negative interval
    ([negative_interval_stops_in_first_tick]). *)
Lemma negative_sleep_time_is_kept :
  let environ : gmap string string :=
    {[ "MONGO_URI" := "mongodb://db.example:27017"; "SLEEP_TIME" := "-3" ]} in
  let w := World [] [] [] (Store [] []) in
  int_of_str "-3" = Some (-3)
  /\ (load_configuration environ w).1
     = Return ("mongodb://db.example:27017", -3, "insurance-pipeline")
  /\ logged (load_configuration environ w).2
     = [LogRecord INFO "Configuration loaded successfully."].
Proof. vm_compute. done. Qed.



(** Digits of another script are digits to [int()]: the full-width "７"
    (bytes EF BC 97) is 7, and so is the sleep time, without a warning. *)
Example fullwidth_digit_is_read :
  let s := String "239" (String "188" (String "151" "")) in
  int_of_str s = Some 7
  /\ (load_configuration
        {[ "MONGO_URI" := "mongodb://db.example:27017"; "SLEEP_TIME" := s ]}
        (World [] [] [] (Store [] []))).1
     = Return ("mongodb://db.example:27017", 7, DEFAULT_DB_NAME).
Proof. vm_compute. done. Qed.

Example sleep_time_abc :
  (load_configuration
     {[ "MONGO_URI" := "mongodb://db.example:27017"; "SLEEP_TIME" := "abc" ]}
     (World [] [] [] (Store [] []))).1
  = Return ("mongodb://db.example:27017", 5, DEFAULT_DB_NAME).
Proof. vm_compute. reflexivity. Qed.

(** An unset interval is the integer 5 already: no warning. *)
Lemma unset_sleep_time_defaults (environ : gmap string string) (uri : string) (w : world) :
  environ !! "SLEEP_TIME" = None ->
  environ !! "MONGO_URI" = Some uri -> uri <> "" ->
  (load_configuration environ w).1
    = Return (uri, 5, default DEFAULT_DB_NAME (environ !! "MONGO_DB_NAME"))
  /\ logged (load_configuration environ w).2
    = logged w ++ [LogRecord INFO "Configuration loaded successfully."].
Proof.
  intros Hs Hu Hne.
  unfold load_configuration, int_of_getenv. rewrite Hs, Hu.
  destruct uri as [|a uri]; [done|]. simpl. done.
Qed.

(** A text that [int()] accepts is the sleep time, whatever its sign. *)
Lemma parsable_sleep_time_is_used
    (environ : gmap string string) (s uri : string) (n : Z) (w : world) :
  environ !! "SLEEP_TIME" = Some s -> int_of_str s = Some n ->
  environ !! "MONGO_URI" = Some uri -> uri <> "" ->
  (load_configuration environ w).1
    = Return (uri, n, default DEFAULT_DB_NAME (environ !! "MONGO_DB_NAME"))
  /\ logged (load_configuration environ w).2
    = logged w ++ [LogRecord INFO "Configuration loaded successfully."].
Proof.
  intros Hs Hint Hu Hne.
  unfold load_configuration, int_of_getenv. rewrite Hs, Hint, Hu.
  destruct uri as [|a uri]; [done|]. simpl. done.
Qed.

(** With the connection string unset (absent or empty),
    [load_configuration] raises its [ValueError], after the critical
    record, touching nothing but the log. *)
Lemma load_configuration_unset (environ : gmap string string) (w : world) :
  environ !! "MONGO_URI" = None \/ environ !! "MONGO_URI" = Some "" ->
  exists w',
    load_configuration environ w = (Raise MONGO_URI_UNSET, w')
    /\ connect_attempts w' = connect_attempts w
    /\ db w' = db w /\ stdout w' = stdout w
    /\ last (logged w')
       = Some (LogRecord CRITICAL
                 "MONGO_URI environment variable is not set. Please check your .env file.").
Proof.
  intros Huri.
  unfold load_configuration, int_of_getenv.
  destruct (environ !! "SLEEP_TIME") as [s|]; [destruct (int_of_str s)|];
    destruct Huri as [-> | ->]; simpl;
    eexists; (split; [reflexivity|]); simpl; rewrite ?last_snoc; done.
Qed.

(** C5. When the process environment has no [MONGO_URI],
    [load_configuration] raises its [ValueError] (the configuration error)
    without a connection attempt, and the whole run of the script ends
    without any: [pymongo.MongoClient] is never called. *)
Theorem missing_mongo_uri_never_connects (p : process) :
  environ p !! "MONGO_URI" = None ->
  (forall w,
      (load_configuration (environ p) w).1 = Raise MONGO_URI_UNSET
      /\ connect_attempts (load_configuration (environ p) w).2
         = connect_attempts w)
  /\ (main p).1 <> Running
  /\ connect_attempts (main p).2 = [].
Proof.
  intros Huri.
  assert (forall w, exists w',
             load_configuration (environ p) w = (Raise MONGO_URI_UNSET, w')
             /\ connect_attempts w' = connect_attempts w) as Hload.
  { intros w.
    destruct (load_configuration_unset (environ p) w (or_introl Huri))
      as (w' & H1 & H2 & _). eauto. }
  split.
  - intros w. destruct (Hload w) as (w' & -> & H). done.
  - unfold main.
    destruct (LoggerUtility.setup_logger _ _ _ _).2.2 as [e|]; [done|].
    unfold application, mbind, M_bind, bind, try_finally, try_except.
    simpl.
    match goal with
    | |- context [load_configuration (environ p) ?w0] =>
        destruct (Hload w0) as (w' & -> & Hc)
    end.
    simpl. split; [done|]. exact Hc.
Qed.

Lemma missing_mongo_uri_never_connects_witness :
  let p := sample_process None {[ "SLEEP_TIME" := "5" ]} None [] in
  (forall w,
      (load_configuration (environ p) w).1 = Raise MONGO_URI_UNSET
      /\ connect_attempts (load_configuration (environ p) w).2
         = connect_attempts w)
  /\ (main p).1 <> Running
  /\ connect_attempts (main p).2 = [].
Proof.
  apply (missing_mongo_uri_never_connects
           (sample_process None {[ "SLEEP_TIME" := "5" ]} None [])).
  reflexivity.
Defined.

(** What the script logs when the connection string is missing. *)
Example missing_mongo_uri_run :
  main (sample_process None {[ "SLEEP_TIME" := "5" ]} None [])
  = (Return tt,
     World
       [ LogRecord INFO STARTING;
         LogRecord CRITICAL "MONGO_URI environment variable is not set. Please check your .env file.";
         LogRecord CRITICAL "Application terminated due to Configuration Error: MONGO_URI environment variable is not set.";
         LogRecord INFO TERMINATED ]
       [] [] (Store [] [])).
Proof. vm_compute. reflexivity. Qed.

(** ** One tick of the loop *)

Lemma time_sleep_accepted (secs : Z) (signal : option exn) (w : world) :
  sleep_accepts secs = true ->
  time_sleep secs signal w
  = match signal with Some e => (Raise e, w) | None => (Return tt, w) end.
Proof.
  unfold sleep_accepts, time_sleep. intros H.
  apply andb_prop in H as [H1 H2].
  apply Z.leb_le in H1, H2.
  replace (secs <? -9223372036) with false by (symmetry; apply Z.ltb_ge; lia).
  replace (9223372036 <? secs) with false by (symmetry; apply Z.ltb_ge; lia).
  replace (secs <? 0) with false by (symmetry; apply Z.ltb_ge; lia).
  by destruct signal.
Qed.

Lemma time_sleep_returns (secs : Z) (w : world) :
  sleep_accepts secs = true -> time_sleep secs None w = (Return tt, w).
Proof. intros H. by rewrite time_sleep_accepted. Qed.

(** A negative interval makes every [time.sleep] raise, whatever the tick. *)
Lemma time_sleep_negative (secs : Z) (signal : option exn) (w : world) :
  secs < 0 ->
  exists e, time_sleep secs signal w = (Raise e, w) /\ is_Exception e = true.
Proof.
  intros H. unfold time_sleep.
  destruct ((secs <? -9223372036) || (9223372036 <? secs)).
  - by eexists.
  - replace (secs <? 0) with true by (symmetry; apply Z.ltb_lt; lia).
    by eexists.
Qed.

(** The generator returns, and the body goes on with the insert block and
    the sleep. *)
Lemma tick_body_generated (sleep_time : Z) (t : tick) (w : world) :
  generate_signal t = None ->
  exists c cl,
    generate_insurance_data (draws t) w = (Return (c, cl), w)
    /\ tick_body sleep_time t w
       = (insert_block t c cl;; time_sleep sleep_time (sleep_signal t)) w.
Proof.
  intros Hg. unfold tick_body. rewrite Hg.
  do 2 eexists. split; reflexivity.
Qed.

(** The inner [try] when the customer insert raises an [Exception]: the
    handler's record is logged and the block ends normally. *)
Lemma insert_block_customer_failed
    (t : tick) (c : customer) (cl : claim) (w : world)
    (e : exn) (written : bool) (r : log_record) :
  customer_answer t = Failed e written ->
  insert_failure_record e = Some r ->
  exists w',
    insert_block t c cl w = (Return tt, w')
    /\ logged w' = logged w ++ [r]
    /\ customers (db w')
       = (if written then customers (db w) ++ [c] else customers (db w))
    /\ claims (db w') = claims (db w)
    /\ connect_attempts w' = connect_attempts w.
Proof.
  intros Hc Hr. unfold insert_block, try_except, mbind, M_bind, bind,
    insert_customer. rewrite Hc.
  destruct e, written; simpl in *; simplify_eq; eexists; simpl; done.
Qed.

(** The inner [try] when the customer insert is acknowledged and the claim
    insert raises an [Exception]: the customer stays in the store. *)
Lemma insert_block_claim_failed
    (t : tick) (c : customer) (cl : claim) (w : world)
    (e : exn) (written : bool) (r : log_record) :
  customer_answer t = Acknowledged ->
  claim_answer t = Failed e written ->
  insert_failure_record e = Some r ->
  exists w',
    insert_block t c cl w = (Return tt, w')
    /\ logged w' = logged w ++ [r]
    /\ customers (db w') = customers (db w) ++ [c]
    /\ claims (db w')
       = (if written then claims (db w) ++ [cl] else claims (db w))
    /\ connect_attempts w' = connect_attempts w.
Proof.
  intros Hc Hcl Hr. unfold insert_block, try_except, mbind, M_bind, bind,
    insert_customer, insert_claim. rewrite Hc, Hcl.
  destruct e, written; simpl in *; simplify_eq; eexists; simpl; done.
Qed.

(** A [KeyboardInterrupt] during an insert is not handled by the inner
    [try]. *)
Lemma insert_block_interrupted
    (t : tick) (c : customer) (cl : claim) (w : world) (written : bool) :
  customer_answer t = Failed KeyboardInterrupt written ->
  (insert_block t c cl w).1 = Raise KeyboardInterrupt.
Proof.
  intros Hc. unfold insert_block, try_except, mbind, M_bind, bind,
    insert_customer. rewrite Hc. by destruct written.
Qed.

(** A tick that returns hands the loop on to the next one; a tick that
    raises ends the loop with its exception. *)
Lemma simulation_loop_step
    (sleep_time : Z) (t : tick) (rest : list tick) (w w' : world) :
  tick_body sleep_time t w = (Return tt, w') ->
  simulation_loop sleep_time (t :: rest) w = simulation_loop sleep_time rest w'.
Proof.
  intros H. simpl. unfold mbind, M_bind, bind. by rewrite H.
Qed.

Lemma simulation_loop_raises
    (sleep_time : Z) (t : tick) (rest : list tick) (w w' : world) (e : exn) :
  tick_body sleep_time t w = (Raise e, w') ->
  simulation_loop sleep_time (t :: rest) w = (Raise e, w').
Proof.
  intros H. simpl. unfold mbind, M_bind, bind. by rewrite H.
Qed.

(** A tick in which an insert raises [e], an [Exception]: the inner [try]
    ends normally with the handler's record logged, and what the tick does
    next is the pacing sleep. *)
Lemma tick_body_insert_failed
    (sleep_time : Z) (t : tick) (w : world) (e : exn) (written : bool)
    (r : log_record) :
  generate_signal t = None ->
  customer_answer t = Failed e written
  \/ customer_answer t = Acknowledged /\ claim_answer t = Failed e written ->
  insert_failure_record e = Some r ->
  exists c cl w',
    generate_insurance_data (draws t) w = (Return (c, cl), w)
    /\ insert_block t c cl w = (Return tt, w')
    /\ tick_body sleep_time t w = time_sleep sleep_time (sleep_signal t) w'
    /\ logged w' = logged w ++ [r]
    /\ customers (db w')
       = (match customer_answer t with
          | Failed _ false => customers (db w)
          | _ => customers (db w) ++ [c]
          end)
    /\ claims (db w')
       = (match customer_answer t, claim_answer t with
          | Acknowledged, Failed _ true => claims (db w) ++ [cl]
          | _, _ => claims (db w)
          end).
Proof.
  intros Hg Hins Hr.
  destruct (tick_body_generated sleep_time t w Hg) as (c & cl & Hgen & Hbody).
  exists c, cl. rewrite Hbody. unfold mbind, M_bind, bind.
  destruct Hins as [Hc | [Hc Hcl]].
  - destruct (insert_block_customer_failed t c cl w e written r Hc Hr)
      as (w' & -> & Hlog & Hcust & Hclaims & _).
    exists w'. rewrite Hc. by destruct written.
  - destruct (insert_block_claim_failed t c cl w e written r Hc Hcl Hr)
      as (w' & -> & Hlog & Hcust & Hclaims & _).
    exists w'. rewrite Hc, Hcl. by destruct written.
Qed.

(** C6. In a tick in which an insert (of the customer, or of the claim after
    an acknowledged customer) raises a duplicate-key conflict, the handler
    of the inner [try] logs one WARNING record and nothing else, and the
    exception goes no further: the body carries on with its pacing sleep
    and ends as that sleep ends.  When the sleep returns (an interval that
    [time.sleep] accepts, no signal during it) the body returns and the
    loop goes on with the next tick. *)
Theorem duplicate_key_is_logged_and_skipped
    (sleep_time : Z) (t : tick) (rest : list tick) (w : world)
    (msg : string) (written : bool) :
  generate_signal t = None ->
  customer_answer t = Failed (DuplicateKeyError msg) written
  \/ customer_answer t = Acknowledged
     /\ claim_answer t = Failed (DuplicateKeyError msg) written ->
  exists w',
    logged w'
    = logged w ++
      [LogRecord WARNING
         ("Duplicate key error detected (likely customer ID collision). Skipping insertion. Error: " +:+ msg)]
    /\ tick_body sleep_time t w = time_sleep sleep_time (sleep_signal t) w'
    /\ (sleep_accepts sleep_time = true -> sleep_signal t = None ->
        tick_body sleep_time t w = (Return tt, w')
        /\ simulation_loop sleep_time (t :: rest) w
           = simulation_loop sleep_time rest w').
Proof.
  intros Hg Hins.
  destruct (tick_body_insert_failed sleep_time t w (DuplicateKeyError msg)
              written _ Hg Hins eq_refl)
    as (c & cl & w' & _ & _ & Hbody & Hlog & _).
  exists w'. split; [done|]. split; [done|].
  intros Hsleep Hsig.
  rewrite Hsig, time_sleep_returns in Hbody by done.
  split; [done|]. by apply simulation_loop_step.
Qed.

Lemma duplicate_key_is_logged_and_skipped_witness :
  let t := sample_tick (Failed (DuplicateKeyError "E11000 duplicate key") false)
             Acknowledged None in
  exists w',
    logged w'
    = [LogRecord WARNING
         "Duplicate key error detected (likely customer ID collision). Skipping insertion. Error: E11000 duplicate key"]
    /\ tick_body 5 t empty_world = (Return tt, w')
    /\ simulation_loop 5 [t; t] empty_world = simulation_loop 5 [t] w'.
Proof.
  intros t.
  destruct (duplicate_key_is_logged_and_skipped 5 t [t] empty_world
              "E11000 duplicate key" false eq_refl (or_introl eq_refl))
    as (w' & Hlog & _ & Hnext).
  destruct (Hnext eq_refl eq_refl) as [Hbody Hloop].
  exists w'. split; [exact Hlog|]. split; [exact Hbody | exact Hloop].
Defined.

(** C10. In a tick in which the customer insert is acknowledged and the
    claim insert raises an exception, the customer stays in the store: the
    customers collection is the old one with the new customer appended,
    nothing is removed, and the handler of the inner [try] logs its record.
    When the failed claim did not reach the store the claims collection is
    unchanged, so the new customer has no paired claim.  The error goes no
    further: the body carries on with its pacing sleep, and when that
    returns the loop goes on with the next tick. *)
Theorem customer_kept_when_claim_insert_fails
    (sleep_time : Z) (t : tick) (rest : list tick) (w : world)
    (e : exn) (written : bool) :
  generate_signal t = None ->
  customer_answer t = Acknowledged ->
  claim_answer t = Failed e written ->
  is_Exception e = true ->
  exists c cl r w',
    generate_insurance_data (draws t) w = (Return (c, cl), w)
    /\ insert_failure_record e = Some r
    /\ customers (db w') = customers (db w) ++ [c]
    /\ claims (db w')
       = (if written then claims (db w) ++ [cl] else claims (db w))
    /\ logged w' = logged w ++ [r]
    /\ tick_body sleep_time t w = time_sleep sleep_time (sleep_signal t) w'
    /\ (sleep_accepts sleep_time = true -> sleep_signal t = None ->
        tick_body sleep_time t w = (Return tt, w')
        /\ simulation_loop sleep_time (t :: rest) w
           = simulation_loop sleep_time rest w').
Proof.
  intros Hg Hc Hcl He.
  assert (exists r, insert_failure_record e = Some r) as [r Hr].
  { destruct e; simpl in *; try done; by eexists. }
  destruct (tick_body_insert_failed sleep_time t w e written r Hg
              (or_intror (conj Hc Hcl)) Hr)
    as (c & cl & w' & Hgen & _ & Hbody & Hlog & Hcust & Hclaims).
  rewrite Hc in Hcust. rewrite Hc, Hcl in Hclaims.
  exists c, cl, r, w'.
  split; [done|]. split; [done|]. split; [done|].
  split; [by destruct written|]. split; [done|]. split; [done|].
  intros Hsleep Hsig.
  rewrite Hsig, time_sleep_returns in Hbody by done.
  split; [done|]. by apply simulation_loop_step.
Qed.

Lemma customer_kept_when_claim_insert_fails_witness :
  let t := sample_tick Acknowledged
             (Failed (ConnectionFailure "connection closed") false) None in
  exists c w',
    customers (db w') = [c]
    /\ claims (db w') = []
    /\ tick_body 5 t empty_world = (Return tt, w')
    /\ simulation_loop 5 [t] empty_world = simulation_loop 5 [] w'.
Proof.
  intros t.
  destruct (customer_kept_when_claim_insert_fails 5 t [] empty_world
              (ConnectionFailure "connection closed") false
              eq_refl eq_refl eq_refl eq_refl)
    as (c & cl & r & w' & _ & _ & Hcust & Hclaims & _ & _ & Hnext).
  destruct (Hnext eq_refl eq_refl) as [Hbody Hloop].
  exists c, w'. split; [exact Hcust|]. split; [exact Hclaims|].
  split; [exact Hbody | exact Hloop].
Defined.

(** The store after such a tick, from an empty one: a customer and no
    claim. *)
Example orphan_customer :
  let t := sample_tick Acknowledged
             (Failed (ConnectionFailure "connection closed") false) None in
  db (tick_body 5 t empty_world).2
  = Store [Customer "CUST-123" "Ann Lee" "CA" "Home" 1715300000000000] [].
Proof. vm_compute. reflexivity. Qed.

(** ** run_simulation and the script *)

(** How the inner [try] ends is decided by the first exception raised in
    it: an interrupt goes on, anything else is handled there. *)
Lemma insert_block_outcome
    (t : tick) (c : customer) (cl : claim) (w : world) :
  (insert_block t c cl w).1
  = match first_raised t with
    | Some KeyboardInterrupt => Raise KeyboardInterrupt
    | _ => Return tt
    end.
Proof.
  unfold insert_block, first_raised, raised_by, try_except, mbind, M_bind,
    bind, insert_customer, insert_claim, count_documents.
  destruct (customer_answer t) as [|e1 w1]; [|by destruct e1, w1].
  destruct (claim_answer t) as [|e2 w2]; [|by destruct e2, w2].
  simpl.
  destruct (customer_count_answer t) as [e3|]; [by destruct e3|].
  destruct (claim_count_answer t) as [e4|]; [by destruct e4|].
  done.
Qed.



(** A tick in which an interrupt arrives ends with [KeyboardInterrupt]. *)
Lemma tick_body_interrupted (sleep_time : Z) (t : tick) (w : world) :
  interrupt_arrives sleep_time t = true ->
  (tick_body sleep_time t w).1 = Raise KeyboardInterrupt.
Proof.
  unfold interrupt_arrives, tick_body, mbind, M_bind, bind. intros H.
  destruct (generate_signal t) as [e|]; [by destruct e|].
  unfold generate_insurance_data, mbind, M_bind, bind. simpl.
  match goal with
  | |- context [insert_block t ?c ?cl ?w0] =>
      pose proof (insert_block_outcome t c cl w0) as Hb;
      destruct (insert_block t c cl w0) as [r w1]
  end.
  simpl in Hb. subst r.
  destruct (first_raised t) as [[]|]; try done;
    apply andb_prop in H as [Hs Hsig];
    rewrite time_sleep_accepted by done;
    by destruct (sleep_signal t) as [[]|].
Qed.

(** A signal that arrives while the process sleeps ends the tick with
    [KeyboardInterrupt]. *)
Lemma tick_body_interrupted_in_sleep
    (sleep_time : Z) (t : tick) (w : world) :
  generate_signal t = None ->
  customer_answer t = Acknowledged -> claim_answer t = Acknowledged ->
  customer_count_answer t = None -> claim_count_answer t = None ->
  sleep_accepts sleep_time = true ->
  sleep_signal t = Some KeyboardInterrupt ->
  (tick_body sleep_time t w).1 = Raise KeyboardInterrupt.
Proof.
  intros Hg Hc Hcl Hn1 Hn2 Hs Hsig.
  apply tick_body_interrupted.
  unfold interrupt_arrives, first_raised.
  by rewrite Hg, Hc, Hcl, Hn1, Hn2, Hsig, Hs.
Qed.

(** [run_simulation] when the loop is interrupted: the message is logged
    last and the function returns. *)
Lemma run_simulation_interrupted
    (customers_col claims_col : collection) (sleep_time : Z)
    (ticks : list tick) (w : world) :
  (simulation_loop sleep_time ticks
     (log INFO ("Starting real-time simulation. Inserting data every "
                +:+ pretty sleep_time +:+ " seconds...") w).2).1
    = Raise KeyboardInterrupt ->
  exists w',
    run_simulation customers_col claims_col sleep_time ticks w = (Return tt, w')
    /\ last (logged w') = Some STOPPED_BY_USER.
Proof.
  intros H. unfold run_simulation, try_except, mbind, M_bind, bind.
  simpl in *.
  destruct (simulation_loop sleep_time ticks _) as [[a|e|] w1]; simpl in *;
    simplify_eq.
  eexists. split; [reflexivity|]. simpl. apply last_snoc.
Qed.





(** The same when the directories are there and the day's file opens, but
    [os.listdir] is refused in the clean-up that [setup_logger] runs. *)
Example unlistable_log_dir_logs_no_banner :
  let p := {| today := "2024-05-10"; now := 1715300000000000;
              initial_files := LoggerUtility.Fs ∅ ∅;
              sys := LoggerUtility.System None None 0
                       (Some "[Errno 13] Permission denied: 'logs'")
                       (fun _ => None) (fun _ => None) (fun _ => None)
                       (fun _ => None) (fun _ => None) (fun _ => "") 0;
              environ := sample_environ; connect_answer := None;
              ticks := []; initial_db := Store [] [] |} in
  (main p).1 = Raise (OSError "[Errno 13] Permission denied: 'logs'")
  /\ logged (main p).2 = [].
Proof. vm_compute. done. Qed.



(** The log of a run interrupted in its second tick. *)
Example interrupted_run :
  let ticks := [sample_tick Acknowledged Acknowledged None;
                sample_tick Acknowledged Acknowledged (Some KeyboardInterrupt)] in
  let r := main (sample_process None sample_environ None ticks) in
  r.1 = Return tt
  /\ message <$> logged r.2
     = [ STARTING;
         "Configuration loaded successfully.";
         "Attempting to connect to MongoDB Atlas...";
         "Successfully connected to MongoDB Atlas.";
         "Starting real-time simulation. Inserting data every 0 seconds...";
         "-> Inserted claim CLM-4567 for customer CUST-123 (Home)";
         "Customer Count == 1"; "Claim Count == 1";
         "-> Inserted claim CLM-4567 for customer CUST-123 (Home)";
         "Customer Count == 2"; "Claim Count == 2";
         "Simulation stopped by user (Ctrl+C). Exiting.";
         TERMINATED ]
  /\ connect_attempts r.2 = ["mongodb://db.example:27017"].
Proof. vm_compute. done. Qed.

(** Start-up errors after the logger is set up: a refused connection is
    logged as critical twice and followed by the banner. *)
Example connection_failure_run :
  let r := main (sample_process None sample_environ
                   (Some (ConnectionFailure "timed out")) []) in
  r.1 = Return tt
  /\ message <$> logged r.2
     = [ STARTING;
         "Configuration loaded successfully.";
         "Attempting to connect to MongoDB Atlas...";
         "Connection error: Could not connect to MongoDB Atlas. Check your MONGO_URI and network status. Error: timed out";
         "Application terminated due to MongoDB connection failure.";
         TERMINATED ].
Proof. vm_compute. done. Qed.

(** An interrupt during start-up is not handled by the script: it ends
    with [KeyboardInterrupt], the banner logged all the same. *)
Example interrupted_startup_run :
  let r := main (sample_process None sample_environ
                   (Some KeyboardInterrupt) []) in
  r.1 = Raise KeyboardInterrupt
  /\ last (logged r.2) = Some (LogRecord INFO TERMINATED).
Proof. vm_compute. done. Qed.

(** With the interval "-3" of [negative_sleep_time_is_kept], the first
    [time.sleep] raises and the loop ends after one tick. *)
Example negative_sleep_time_run :
  let r := main (sample_process None
                   {[ "MONGO_URI" := "mongodb://db.example:27017";
                      "SLEEP_TIME" := "-3" ]} None
                   [sample_tick Acknowledged Acknowledged None;
                    sample_tick Acknowledged Acknowledged None]) in
  r.1 = Return tt
  /\ length (customers (db r.2)) = 1%nat
  /\ In (LogRecord CRITICAL
           "A critical error occurred during the simulation loop: sleep length must be non-negative")
        (logged r.2).
Proof. vm_compute. repeat split; auto 20. Qed.

(** ** The amount and the claim type *)


(** Rounding is to the nearest hundredth: the result is within half a
    hundredth of the exact value [n / d]. *)
Lemma round_half_even_nearest (n d : Z) :
  0 < d -> Z.abs (2 * (round_half_even n d * d - n)) <= d.
Proof.
  intros Hd. unfold round_half_even.
  pose proof (Z.div_mod n d ltac:(lia)) as Hdm.
  pose proof (Z.mod_pos_bound n d Hd) as Hr.
  assert (n / d * d - n = - (n mod d)) as Hlo by lia.
  assert ((n / d + 1) * d - n = d - n mod d) as Hhi by lia.
  destruct (2 * (n mod d) ?= d) eqn:Hc.
  - apply Z.compare_eq in Hc.
    destruct (Z.even (n / d)); rewrite ?Hlo, ?Hhi; lia.
  - rewrite Z.compare_lt_iff in Hc. rewrite Hlo. lia.
  - rewrite Z.compare_gt_iff in Hc. rewrite Hhi. lia.
Qed.





Lemma all_from_sound (P : Z -> bool) (depth : nat) (lo : Z) :
  all_from P depth lo = true ->
  forall k, lo <= k < lo + 2 ^ Z.of_nat depth -> P k = true.
Proof.
  revert lo. induction depth as [|d IH]; intros lo H k Hk.
  - simpl in *. by replace k with lo by lia.
  - simpl all_from in H. apply andb_prop in H as [H1 H2].
    rewrite Nat2Z.inj_succ, Z.pow_succ_r in Hk by lia.
    destruct (Z_lt_ge_dec k (lo + 2 ^ Z.of_nat d)).
    + apply (IH lo H1). lia.
    + apply (IH _ H2). lia.
Qed.




(** The sample draw 1234.567 becomes the amount 1234.57, of type "Fire". *)
Example sample_claim :
  (generate_insurance_data sample_draws empty_world).1
  = Return
      (Customer "CUST-123" "Ann Lee" "CA" "Home" 1715300000000000,
       Claim "CLM-4567" "CUST-123" "2024-03-01" 0x1.34a47ae147ae1p+10 "Fire"
         false "Submitted").
Proof. vm_compute. reflexivity. Qed.

(** * Further properties of the log clean-up *)



(** X2. what is never moved.  A file of the log directory whose name does
    not end in ".log", or whose last-modified time is not before the
    cutoff ([now] minus [days_to_keep] days), stays where it is, and the
    archive is untouched at its name. *)
Theorem recent_and_foreign_files_stay
    (today : string) (sys : system)
    (days_to_keep now : Z) (fs : filesystem) (filename : string) (f : file) :
  log_dir fs !! filename = Some f ->
  endswith filename ".log" = false
  \/ now - timedelta_days days_to_keep <= mtime f ->
  log_dir (cleanup_old_logs today sys days_to_keep now fs).1
      !! filename = Some f
  /\ archive_dir (cleanup_old_logs today sys days_to_keep now fs).1
      !! filename = archive_dir fs !! filename.
Proof.
  intros Hf Hkeep.
  assert (move_attempted today sys (now - timedelta_days days_to_keep)
            fs filename = false) as Hs.
  { unfold move_attempted. rewrite Hf.
    destruct Hkeep as [-> | Hm]; [done|].
    replace (mtime f <? now - timedelta_days days_to_keep) with false
      by (symmetry; apply Z.ltb_ge; lia).
    destruct (getmtime_error sys filename),
      (fromtimestamp_error sys (mtime f)); apply andb_false_r. }
  split.
  - rewrite <- Hf. apply cleanup_keeps. unfold archivable. by rewrite Hs.
  - by apply cleanup_keeps_archive.
Qed.

Lemma recent_and_foreign_files_stay_witness :
  let fs := Fs {[ "simulator_2024-05-09.log" := File (timedelta_days 29) "x" ]}
               ∅ in
  let fs' := (cleanup_old_logs "2024-05-10" obliging 7
                (timedelta_days 30) fs).1 in
  log_dir fs' !! "simulator_2024-05-09.log" = Some (File (timedelta_days 29) "x")
  /\ archive_dir fs' !! "simulator_2024-05-09.log"
     = archive_dir fs !! "simulator_2024-05-09.log".
Proof.
  apply (recent_and_foreign_files_stay "2024-05-10" obliging 7
           (timedelta_days 30) _ "simulator_2024-05-09.log"
           (File (timedelta_days 29) "x")).
  - reflexivity.
  - right. vm_compute. discriminate.
Defined.

(** X3. conservation.  The clean-up destroys no log file and makes none up
    in the log directory: a file of the log directory is afterwards either
    still there, or gone from it and stored whole in the archive under the
    same name (its move went through, replacing what the archive held
    under that name).  While the file is still there the archive is
    untouched at its name, unless a move of the file was tried and raised:
    then the archive holds there what the failed attempt left, possibly a
    copy.  A name absent from the log directory stays absent, its archive
    entry untouched. *)
Theorem cleanup_conserves_files
    (today : string) (sys : system)
    (days_to_keep now : Z) (fs : filesystem) (filename : string) :
  let fs' := (cleanup_old_logs today sys days_to_keep now fs).1 in
  match log_dir fs !! filename with
  | Some f =>
      log_dir fs' !! filename = Some f
      /\ (archive_dir fs' !! filename = archive_dir fs !! filename
          \/ is_Some (move_error sys filename)
             /\ is_Some (move_residue sys filename)
             /\ archive_dir fs' !! filename = move_residue sys filename)
      \/ log_dir fs' !! filename = None
         /\ archive_dir fs' !! filename = Some f
         /\ move_error sys filename = None
  | None =>
      log_dir fs' !! filename = None
      /\ archive_dir fs' !! filename = archive_dir fs !! filename
  end.
Proof.
  intros fs'. unfold fs'.
  set (c := now - timedelta_days days_to_keep).
  destruct ((cleanup_old_logs today sys days_to_keep now fs).2.2)
    as [e|] eqn:Hr.
  { apply cleanup_raised in Hr as [-> _].
    destruct (log_dir fs !! filename) eqn:Hf; auto. }
  destruct (cleanup_fs_lookup today sys days_to_keep now fs filename Hr)
    as [-> ->]. fold c.
  destruct (log_dir fs !! filename) as [f|] eqn:Hf.
  - unfold archived, archivable.
    destruct (move_attempted today sys c fs filename); simpl; [|auto].
    destruct (move_error sys filename) as [e|] eqn:He; simpl.
    + left. split; [done|].
      destruct (move_residue sys filename) as [g|] eqn:Hg; simpl; [|auto].
      right. eauto.
    + right. by rewrite Hf.
  - by rewrite archivable_absent, archived_absent.
Qed.

(** X4. the date in a file's name plays no part.  Two files of the log
    directory with the same last-modified time, names ending in ".log" and
    neither the active one, share their fate: both are archived or both
    stay, as long as the operating system reads the time of both and moves
    both. *)
Theorem archival_goes_by_mtime_only
    (today : string) (sys : system)
    (days_to_keep now : Z) (fs : filesystem)
    (n1 n2 : string) (f1 f2 : file) :
  log_dir fs !! n1 = Some f1 -> log_dir fs !! n2 = Some f2 ->
  endswith n1 ".log" = true -> endswith n2 ".log" = true ->
  n1 <> LOG_FILENAME today -> n2 <> LOG_FILENAME today ->
  getmtime_error sys n1 = None -> getmtime_error sys n2 = None ->
  move_error sys n1 = None -> move_error sys n2 = None ->
  mtime f1 = mtime f2 ->
  let fs' := (cleanup_old_logs today sys days_to_keep now fs).1 in
  (log_dir fs' !! n1 = None <-> log_dir fs' !! n2 = None).
Proof.
  intros H1 H2 He1 He2 Ha1 Ha2 Hs1 Hs2 Hm1 Hm2 Hmt fs'. unfold fs'.
  destruct ((cleanup_old_logs today sys days_to_keep now fs).2.2)
    as [e|] eqn:Hr.
  { apply cleanup_raised in Hr as [-> _]. by rewrite H1, H2. }
  destruct (cleanup_fs_lookup today sys days_to_keep now fs n1 Hr) as [-> _].
  destruct (cleanup_fs_lookup today sys days_to_keep now fs n2 Hr) as [-> _].
  unfold archivable, move_attempted.
  rewrite H1, H2, He1, He2, Hs1, Hs2, Hm1, Hm2, Hmt.
  apply String.eqb_neq in Ha1, Ha2. rewrite Ha1, Ha2. simpl.
  destruct (fromtimestamp_error sys (mtime f2)); simpl; [done|].
  by destruct (mtime f2 <? now - timedelta_days days_to_keep).
Qed.

Lemma archival_goes_by_mtime_only_witness :
  let fs := Fs {[ "simulator_2030-01-01.log" := File 0 "a";
                  "simulator_1999-01-01.log" := File 0 "b" ]} ∅ in
  let fs' := (cleanup_old_logs "2024-05-10" obliging 7
                (timedelta_days 30) fs).1 in
  log_dir fs' !! "simulator_2030-01-01.log" = None
  <-> log_dir fs' !! "simulator_1999-01-01.log" = None.
Proof.
  apply (archival_goes_by_mtime_only "2024-05-10" obliging 7
           (timedelta_days 30) _ "simulator_2030-01-01.log"
           "simulator_1999-01-01.log" (File 0 "a") (File 0 "b"));
    try reflexivity; discriminate.
Defined.

(** ** What the clean-up prints and logs *)

Section CleanupOutput.

Variable today : string.
Variable sys : system.
Variable cutoff_date : Z.

Abbreviation step' := (cleanup_step today sys cutoff_date).

(** A pass of the loop body only appends to the output. *)
Lemma cleanup_step_output st n : exists new, (step' st n).2 = st.2 ++ new.
Proof.
  destruct st as [fs out]. unfold cleanup_step.
  destruct (endswith n ".log"); [|by exists []; rewrite app_nil_r].
  destruct (String.eqb n (LOG_FILENAME today));
    [by exists []; rewrite app_nil_r|].
  destruct (getmtime sys fs n) as [e|t]; [by eexists|].
  destruct (fromtimestamp sys t) as [e|t']; [by eexists|].
  destruct (t' <? cutoff_date); [|by exists []; rewrite app_nil_r].
  destruct (move sys fs n) as [[e|] fs']; [by eexists|].
  destruct (print_error sys _); by eexists.
Qed.

Lemma cleanup_fold_output_mono l st o :
  o ∈ st.2 -> o ∈ (foldl step' st l).2.
Proof.
  revert st. induction l as [|n l IH]; intros st Ho; simpl; [done|].
  apply IH. destruct (cleanup_step_output st n) as [new ->].
  apply elem_of_app. by left.
Qed.

(** What the pass at a stale log file writes, when its time is read. *)
Lemma cleanup_step_reports st n f :
  log_dir st.1 !! n = Some f ->
  endswith n ".log" = true ->
  n <> LOG_FILENAME today ->
  getmtime_error sys n = None ->
  fromtimestamp_error sys (mtime f) = None ->
  mtime f < cutoff_date ->
  match move_error sys n, print_error sys ("Archived old log file: " +:+ n) with
  | Some e, _ | None, Some e => cleanup_error n e
  | None, None => Printed ("Archived old log file: " +:+ n)
  end ∈ (step' st n).2.
Proof.
  intros Hf He Ha Hs Hc Hm. destruct st as [fs out]. simpl in Hf.
  unfold cleanup_step, getmtime, fromtimestamp, move. rewrite He, Hf, Hs, Hc.
  apply String.eqb_neq in Ha. rewrite Ha.
  replace (mtime f <? cutoff_date) with true by (symmetry; by apply Z.ltb_lt).
  destruct (move_error sys n); simpl; [|destruct (print_error sys _); simpl];
    apply elem_of_app; right; apply list_elem_of_here.
Qed.

Lemma cleanup_fold_reports l st n f :
  n ∈ l ->
  log_dir st.1 !! n = Some f ->
  endswith n ".log" = true ->
  n <> LOG_FILENAME today ->
  getmtime_error sys n = None ->
  fromtimestamp_error sys (mtime f) = None ->
  mtime f < cutoff_date ->
  match move_error sys n, print_error sys ("Archived old log file: " +:+ n) with
  | Some e, _ | None, Some e => cleanup_error n e
  | None, None => Printed ("Archived old log file: " +:+ n)
  end ∈ (foldl step' st l).2.
Proof.
  revert st. induction l as [|a l IH]; intros st Hin Hf He Ha Hs Hc Hm.
  - by apply elem_of_nil in Hin.
  - simpl. destruct (decide (n = a)) as [<-|Hne].
    + apply cleanup_fold_output_mono. by eapply cleanup_step_reports.
    + apply elem_of_cons in Hin as [?|Hin]; [done|].
      apply IH; try done.
      rewrite cleanup_step_log_dir.
      by rewrite bool_decide_eq_false_2.
Qed.

(** With every listed ".log" name present, every time read and converted,
    no move refused and every line printed, a pass writes no error. *)
Lemma cleanup_fold_no_error l st msg :
  (forall n, getmtime_error sys n = None) ->
  (forall t, fromtimestamp_error sys t = None) ->
  (forall n, move_error sys n = None) ->
  (forall line, print_error sys line = None) ->
  NoDup l ->
  (forall n, n ∈ l -> endswith n ".log" = true -> is_Some (log_dir st.1 !! n)) ->
  LoggedError msg ∈ (foldl step' st l).2 -> LoggedError msg ∈ st.2.
Proof.
  intros Hstat Hconv Hmove Hprint. revert st.
  induction l as [|a l IH]; intros st Hnd Hpresent Hin; simpl in *; [done|].
  apply NoDup_cons in Hnd as [Ha Hnd].
  apply IH in Hin; [|done|].
  - destruct st as [fs out].
    unfold cleanup_step, getmtime, fromtimestamp, move in Hin.
    simpl in *.
    destruct (endswith a ".log") eqn:He; [|done].
    destruct (String.eqb a (LOG_FILENAME today)); [done|].
    destruct (Hpresent a ltac:(left) He) as [f Hf]. simpl in Hf.
    rewrite Hstat, Hf, Hconv, Hmove in Hin.
    destruct (mtime f <? cutoff_date); [|done]. rewrite Hprint in Hin.
    simpl in Hin.
    apply elem_of_app in Hin as [?|Hin]; [done|].
    apply list_elem_of_singleton in Hin. discriminate.
  - intros n Hn He. rewrite cleanup_step_log_dir.
    rewrite bool_decide_eq_false_2 by (intros ->; done). simpl.
    apply Hpresent; [by right | done].
Qed.

End CleanupOutput.

(** X5. a refused move is not fatal and is reported.  When [shutil.move]
    raises for a stale log file (in a run that gets to its loop and reads
    the file's time), [cleanup_old_logs] still returns, the file stays in
    the log directory, and the output holds the error record "Error during
    log cleanup for <name>: <error>".  The archive holds under the name
    what the failed attempt left there, a whole or partial copy, and is
    untouched at the name when the attempt left nothing. *)
Theorem refused_move_is_logged_and_file_stays
    (today : string) (sys : system)
    (days_to_keep now cutoff : Z) (fs : filesystem)
    (filename e : string) (f : file) :
  cutoff_date days_to_keep now = inr cutoff ->
  listdir_error sys = None ->
  log_dir fs !! filename = Some f ->
  endswith filename ".log" = true ->
  filename <> LOG_FILENAME today ->
  getmtime_error sys filename = None ->
  fromtimestamp_error sys (mtime f) = None ->
  mtime f < now - timedelta_days days_to_keep ->
  move_error sys filename = Some e ->
  let r := cleanup_old_logs today sys days_to_keep now fs in
  r.2.2 = None
  /\ log_dir r.1 !! filename = Some f
  /\ archive_dir r.1 !! filename
     = from_option Some (archive_dir fs !! filename) (move_residue sys filename)
  /\ LoggedError ("Error during log cleanup for " +:+ filename +:+ ": " +:+ e)
       ∈ r.2.1.
Proof.
  intros Hc Hlist Hf He Ha Hstat Hconv Hm Hmove r. unfold r.
  pose proof (cleanup_returns today sys days_to_keep now) as Hr.
  pose proof (cutoff_date_inr _ _ _ Hc) as ->.
  specialize (Hr Hc Hlist fs).
  destruct (cleanup_fs_lookup today sys days_to_keep now fs filename Hr)
    as [Hl Har].
  assert (move_attempted today sys (now - timedelta_days days_to_keep)
            fs filename = true) as Hatt.
  { unfold move_attempted. rewrite He, Hf, Hstat, Hconv.
    apply String.eqb_neq in Ha. rewrite Ha. simpl. by apply Z.ltb_lt. }
  assert (archivable today sys (now - timedelta_days days_to_keep)
            fs filename = false) as Hs.
  { unfold archivable. rewrite Hmove. apply andb_false_r. }
  unfold archived in Har. rewrite Hs, Hatt in Har. rewrite Hs in Hl.
  split; [done|]. split; [by rewrite Hl|]. split; [done|].
  apply cleanup_returned in Hr as (_ & _ & _ & ->).
  pose proof (cleanup_fold_reports today sys
                (now - timedelta_days days_to_keep) (listdir fs) (fs, [])
                filename f (listdir_complete fs filename f Hf) Hf He Ha
                Hstat Hconv Hm) as H.
  by rewrite Hmove in H.
Qed.

Lemma refused_move_is_logged_and_file_stays_witness :
  let fs := Fs {[ "simulator_2024-04-01.log" := File 0 "old" ]} ∅ in
  let sys := refusing_moves "[Errno 13] Permission denied"
               (Some (File 5 "ol")) in
  let r := cleanup_old_logs "2024-05-10" sys 7 (timedelta_days 30) fs in
  r.2.2 = None
  /\ log_dir r.1 !! "simulator_2024-04-01.log" = Some (File 0 "old")
  /\ archive_dir r.1 !! "simulator_2024-04-01.log"
     = from_option Some (archive_dir fs !! "simulator_2024-04-01.log")
         (move_residue sys "simulator_2024-04-01.log")
  /\ LoggedError "Error during log cleanup for simulator_2024-04-01.log: [Errno 13] Permission denied"
       ∈ r.2.1.
Proof.
  apply (refused_move_is_logged_and_file_stays "2024-05-10"
           (refusing_moves "[Errno 13] Permission denied" (Some (File 5 "ol")))
           7 (timedelta_days 30) (timedelta_days 23) _
           "simulator_2024-04-01.log"
           "[Errno 13] Permission denied" (File 0 "old")).
  - reflexivity.
  - reflexivity.
  - reflexivity.
  - reflexivity.
  - discriminate.
  - reflexivity.
  - reflexivity.
  - vm_compute. reflexivity.
  - reflexivity.
Defined.

(** A move that raised after its copy had reached the archive: the file is
    in both directories afterwards. *)
Example failed_move_leaves_copy :
  let fs := Fs {[ "simulator_2024-04-01.log" := File 0 "old" ]} ∅ in
  let sys := refusing_moves "[Errno 13] Permission denied"
               (Some (File 0 "old")) in
  let r := cleanup_old_logs "2024-05-10" sys 7 (timedelta_days 30) fs in
  log_dir r.1 !! "simulator_2024-04-01.log" = Some (File 0 "old")
  /\ archive_dir r.1 !! "simulator_2024-04-01.log" = Some (File 0 "old").
Proof. vm_compute. done. Qed.

(** X6. every archived file is announced.  For each stale log file that is
    moved (in a run that gets to its loop, the file's time read and
    converted, the move not refused), the line "Archived old log file:
    <name>" is printed, when [print] does not raise. *)
Theorem archived_files_are_announced
    (today : string) (sys : system)
    (days_to_keep now cutoff : Z) (fs : filesystem) (filename : string) (f : file) :
  cutoff_date days_to_keep now = inr cutoff ->
  listdir_error sys = None ->
  log_dir fs !! filename = Some f ->
  endswith filename ".log" = true ->
  filename <> LOG_FILENAME today ->
  getmtime_error sys filename = None ->
  fromtimestamp_error sys (mtime f) = None ->
  mtime f < now - timedelta_days days_to_keep ->
  move_error sys filename = None ->
  print_error sys ("Archived old log file: " +:+ filename) = None ->
  Printed ("Archived old log file: " +:+ filename)
    ∈ (cleanup_old_logs today sys days_to_keep now fs).2.1.
Proof.
  intros Hc Hlist Hf He Ha Hstat Hconv Hm Hmove Hprint.
  pose proof (cleanup_returns today sys days_to_keep now) as Hr.
  pose proof (cutoff_date_inr _ _ _ Hc) as ->.
  specialize (Hr Hc Hlist fs).
  apply cleanup_returned in Hr as (_ & _ & _ & ->).
  pose proof (cleanup_fold_reports today sys
                (now - timedelta_days days_to_keep) (listdir fs) (fs, [])
                filename f (listdir_complete fs filename f Hf) Hf He Ha
                Hstat Hconv Hm) as H.
  by rewrite Hmove, Hprint in H.
Qed.

Lemma archived_files_are_announced_witness :
  let fs := Fs {[ "simulator_2024-04-01.log" := File 0 "old" ]} ∅ in
  Printed "Archived old log file: simulator_2024-04-01.log"
    ∈ (cleanup_old_logs "2024-05-10" obliging 7
         (timedelta_days 30) fs).2.1.
Proof.
  apply (archived_files_are_announced "2024-05-10" obliging 7
           (timedelta_days 30) (timedelta_days 23) _
           "simulator_2024-04-01.log" (File 0 "old")).
  - reflexivity.
  - reflexivity.
  - reflexivity.
  - reflexivity.
  - discriminate.
  - reflexivity.
  - reflexivity.
  - vm_compute. reflexivity.
  - reflexivity.
  - reflexivity.
Defined.

(** X7. a run in which nothing is refused logs no error: when
    [os.path.getmtime] reads every time, [datetime.fromtimestamp] converts
    every time, [shutil.move] moves every file and [print] prints every
    line, no ERROR record is written, since every name the loop looks at is
    in the directory when its turn comes. *)
Theorem clean_run_logs_no_error
    (today : string) (sys : system)
    (days_to_keep now : Z) (fs : filesystem) (msg : string) :
  (forall n, getmtime_error sys n = None) ->
  (forall t, fromtimestamp_error sys t = None) ->
  (forall n, move_error sys n = None) ->
  (forall line, print_error sys line = None) ->
  LoggedError msg ∉ (cleanup_old_logs today sys days_to_keep now fs).2.1.
Proof.
  intros Hstat Hconv Hmove Hprint Hin.
  destruct ((cleanup_old_logs today sys days_to_keep now fs).2.2)
    as [e|] eqn:Hr.
  { apply cleanup_raised in Hr as [_ Hout]. rewrite Hout in Hin.
    by apply elem_of_nil in Hin. }
  apply cleanup_returned in Hr as (_ & _ & _ & Hout). rewrite Hout in Hin.
  assert (foldl (cleanup_step today sys (now - timedelta_days days_to_keep))
            (fs, []) (listdir fs)
          = foldl (cleanup_step today sys (now - timedelta_days days_to_keep))
              (fs, []) (map_to_list (log_dir fs)).*1) as Heq by reflexivity.
  rewrite Heq in Hin.
  apply cleanup_fold_no_error in Hin; try done.
  - by apply elem_of_nil in Hin.
  - apply NoDup_fst_map_to_list.
  - intros n Hn _. simpl.
    apply list_elem_of_fmap in Hn as [[n' f] [-> Hn]].
    apply elem_of_map_to_list in Hn. by exists f.
Qed.

Lemma clean_run_logs_no_error_witness :
  let fs := Fs {[ "simulator_2024-04-01.log" := File 0 "old";
                  "notes.txt" := File 0 "n" ]} ∅ in
  LoggedError "anything"
    ∉ (cleanup_old_logs "2024-05-10" obliging 7
         (timedelta_days 30) fs).2.1.
Proof.
  apply (clean_run_logs_no_error "2024-05-10" obliging 7
           (timedelta_days 30) _ "anything"); reflexivity.
Defined.

(** The file handler leaves every name but the active day's alone. *)
Lemma handle_errors_lookup (today : string) (sys : system)
    (out : list output) (fs : filesystem) :
  archive_dir (handle_errors today sys out fs) = archive_dir fs
  /\ log_dir (handle_errors today sys out fs) !! LOG_FILENAME today
     = match error_messages out with
       | [] => log_dir fs !! LOG_FILENAME today
       | msgs =>
           Some (File (handler_time sys)
                   (default "" (content <$> log_dir fs !! LOG_FILENAME today)
                    +:+ handler_text sys msgs))
       end.
Proof.
  unfold handle_errors. destruct (error_messages out); [done|].
  simpl. split; [done|]. apply lookup_insert_eq.
Qed.

(** X8. [setup_logger] leaves the day's log file in place.  When it
    returns, the log directory holds a file under [LOG_FILENAME] and the
    archive is untouched at that name.  If the clean-up logged no error,
    the file is the one that was there, however old, or a new empty one;
    if it did, the logger's file handler has appended its lines for these
    errors to that content. *)
Theorem setup_logger_keeps_active_file
    (today : string) (sys : system)
    (now : Z) (fs fs' : filesystem) (out : list output) :
  setup_logger today sys now fs = (fs', (out, None)) ->
  let before := default (File (created sys) "") (log_dir fs !! LOG_FILENAME today) in
  log_dir fs' !! LOG_FILENAME today
  = Some (match error_messages out with
          | [] => before
          | msgs => File (handler_time sys)
                      (content before +:+ handler_text sys msgs)
          end)
  /\ archive_dir fs' !! LOG_FILENAME today
     = archive_dir fs !! LOG_FILENAME today.
Proof.
  intros H. cbv zeta.
  set (before := default (File (created sys) "")
                   (log_dir fs !! LOG_FILENAME today)).
  unfold setup_logger in H.
  destruct (makedirs_error sys); [done|].
  destruct (open_error sys); [done|].
  set (fs1 := match log_dir fs !! LOG_FILENAME today with
              | Some _ => fs
              | None => Fs (<[LOG_FILENAME today := File (created sys) ""]>
                              (log_dir fs))
                           (archive_dir fs)
              end) in H.
  assert (log_dir fs1 !! LOG_FILENAME today = Some before
          /\ archive_dir fs1 !! LOG_FILENAME today
             = archive_dir fs !! LOG_FILENAME today) as [Hb Hb'].
  { unfold fs1, before.
    destruct (log_dir fs !! LOG_FILENAME today) as [f|] eqn:Hf; simpl.
    - by rewrite Hf.
    - by rewrite lookup_insert_eq. }
  cbv zeta in H.
  pose proof (cleanup_keeps today sys 7 now fs1 (LOG_FILENAME today)
                (archivable_active today sys _ fs1)) as Hl.
  pose proof (cleanup_keeps_archive today sys 7 now fs1 (LOG_FILENAME today)
                (move_attempted_active today sys _ fs1)) as Ha.
  destruct (cleanup_old_logs today sys 7 now fs1) as [fs2 [out2 exc]].
  simpl in *. simplify_eq.
  destruct (handle_errors_lookup today sys out fs2) as [Harch Hlog].
  rewrite Harch, Ha, Hb'. split; [|done].
  rewrite Hlog, Hl, Hb. simpl.
  by destruct (error_messages out).
Qed.

Lemma setup_logger_keeps_active_file_witness :
  let fs := Fs {[ "simulator_2024-04-01.log" := File 0 "old" ]} ∅ in
  let sys := refusing_moves "[Errno 13] Permission denied" None in
  let r := setup_logger "2024-05-10" sys (timedelta_days 30) fs in
  log_dir r.1 !! LOG_FILENAME "2024-05-10"
  = Some (File 1 "Error during log cleanup for simulator_2024-04-01.log: [Errno 13] Permission denied")
  /\ archive_dir r.1 !! LOG_FILENAME "2024-05-10" = None.
Proof.
  intros fs sys r.
  apply (setup_logger_keeps_active_file "2024-05-10" sys
           (timedelta_days 30) fs r.1 r.2.1).
  vm_compute. reflexivity.
Defined.




(** * Further properties of the simulator *)

(** ** Invariants carried through the monad *)

Section Keeps.

Context (R : world -> world -> Prop) `{!PreOrder R}.

Lemma keeps_ret {A} (a : A) : keeps R (ret a).
Proof. intros w. simpl. reflexivity. Qed.

Lemma keeps_raise {A} (e : exn) : keeps R (raise (A := A) e).
Proof. intros w. simpl. reflexivity. Qed.

Lemma keeps_running {A} : keeps R (running (A := A)).
Proof. intros w. simpl. reflexivity. Qed.

Lemma keeps_bind {A B} (m : M A) (k : A -> M B) :
  keeps R m -> (forall a, keeps R (k a)) -> keeps R (bind m k).
Proof.
  intros Hm Hk w. unfold bind. specialize (Hm w).
  destruct (m w) as [[a|e|] w1]; simpl in *; try done.
  etrans; [exact Hm | apply Hk].
Qed.

Lemma keeps_try_except {A} (m : M A) (h : exn -> option (M A)) :
  keeps R m -> (forall e k, h e = Some k -> keeps R k) ->
  keeps R (try_except m h).
Proof.
  intros Hm Hh w. unfold try_except. specialize (Hm w).
  destruct (m w) as [[a|e|] w1]; simpl in *; try done.
  destruct (h e) as [k|] eqn:Hk; simpl; [|done].
  etrans; [exact Hm | by eapply Hh].
Qed.

Lemma keeps_try_finally {A} (m : M A) (f : M unit) :
  keeps R m -> keeps R f -> keeps R (try_finally m f).
Proof.
  intros Hm Hf w. unfold try_finally. specialize (Hm w).
  destruct (m w) as [[a|e|] w1]; simpl in *; try done;
    specialize (Hf w1); destruct (f w1) as [[[]|e'|] w2]; simpl in *;
    by etrans.
Qed.

End Keeps.

#[local] Instance extends_preorder : PreOrder extends.
Proof.
  split.
  - intros w. by repeat split.
  - intros w1 w2 w3 (H1 & H2 & H3) (H4 & H5 & H6).
    repeat split; by etrans.
Qed.

#[local] Instance same_outside_preorder : PreOrder same_outside.
Proof.
  split.
  - intros w. by repeat split.
  - intros w1 w2 w3 (H1 & H2) (H4 & H5).
    repeat split; congruence.
Qed.

(** A relation that logging and the two inserts respect is respected by
    everything built from them. *)
Section KeepsSimulation.

Context (R : world -> world -> Prop) `{!PreOrder R}.
Hypothesis keeps_log : forall l msg, keeps R (log l msg).
Hypothesis keeps_insert_customer : forall a c, keeps R (insert_customer a c).
Hypothesis keeps_insert_claim : forall a c, keeps R (insert_claim a c).

Ltac keeps_step :=
  first
    [ apply keeps_log | apply keeps_insert_customer | apply keeps_insert_claim
    | apply keeps_ret; solve [auto with typeclass_instances]
    | apply keeps_raise; solve [auto with typeclass_instances]
    | apply keeps_running; solve [auto with typeclass_instances]
    | apply keeps_bind; [solve [auto with typeclass_instances] | | intros ?]
    | apply keeps_try_finally; [solve [auto with typeclass_instances] | | ]
    | apply keeps_try_except; [solve [auto with typeclass_instances] | |
        let e := fresh "e" in let k := fresh "k" in let H := fresh "H" in
        intros e k H; destruct e; simplify_eq ] ].

Lemma keeps_count_documents {A} (a : option exn) (col : store -> list A) :
  keeps R (count_documents a col).
Proof. intros w. unfold count_documents. destruct a; simpl; reflexivity. Qed.

Lemma keeps_time_sleep (secs : Z) (signal : option exn) :
  keeps R (time_sleep secs signal).
Proof.
  unfold time_sleep.
  destruct (_ || _); [keeps_step|].
  destruct (secs <? 0); [keeps_step|].
  destruct signal; keeps_step.
Qed.

Lemma keeps_generate_insurance_data (d : rng_draws) :
  keeps R (generate_insurance_data d).
Proof. unfold generate_insurance_data, mbind, M_bind. repeat keeps_step. Qed.

Lemma keeps_insert_block (t : tick) (c : customer) (cl : claim) :
  keeps R (insert_block t c cl).
Proof.
  unfold insert_block, mbind, M_bind.
  repeat first [keeps_step | apply keeps_count_documents].
Qed.

Lemma keeps_tick_body (sleep_time : Z) (t : tick) :
  keeps R (tick_body sleep_time t).
Proof.
  unfold tick_body, mbind, M_bind.
  apply keeps_bind; [done| |intros pair].
  - destruct (generate_signal t); [keeps_step|].
    apply keeps_generate_insurance_data.
  - apply keeps_bind; [done|apply keeps_insert_block|intros _].
    apply keeps_time_sleep.
Qed.

Lemma keeps_simulation_loop (sleep_time : Z) (ticks : list tick) :
  keeps R (simulation_loop sleep_time ticks).
Proof.
  induction ticks as [|t rest IH]; simpl.
  - keeps_step.
  - unfold mbind, M_bind.
    apply keeps_bind; [done|apply keeps_tick_body|by intros _].
Qed.

Lemma keeps_run_simulation (customers_col claims_col : collection)
    (sleep_time : Z) (ticks : list tick) :
  keeps R (run_simulation customers_col claims_col sleep_time ticks).
Proof.
  unfold run_simulation, mbind, M_bind.
  apply keeps_bind; [done|apply keeps_log|intros _].
  apply keeps_try_except; [done|apply keeps_simulation_loop|].
  intros e k H. destruct e; simplify_eq; apply keeps_log.
Qed.

Lemma keeps_load_configuration (environ : gmap string string) :
  keeps R (load_configuration environ).
Proof.
  unfold load_configuration, int_of_getenv, mbind, M_bind.
  apply keeps_bind; [done| |intros sleep_time].
  - apply keeps_try_except; [done| |].
    + destruct (environ !! "SLEEP_TIME") as [s|]; [|keeps_step].
      destruct (int_of_str s); keeps_step.
    + intros e k H. destruct e; simplify_eq. repeat keeps_step.
  - destruct (environ !! "MONGO_URI") as [[|a uri]|]; repeat keeps_step.
Qed.

End KeepsSimulation.

Lemma log_extends l msg : keeps extends (log l msg).
Proof.
  intros w. unfold log, extends.
  destruct (levelno LOG_LEVEL <=? levelno l); simpl; repeat split; try done.
  by apply prefix_app_r.
Qed.

Lemma insert_customer_extends a c : keeps extends (insert_customer a c).
Proof.
  intros w. unfold insert_customer, extends.
  destruct a as [|e []]; simpl; repeat split; try done; by apply prefix_app_r.
Qed.

Lemma insert_claim_extends a c : keeps extends (insert_claim a c).
Proof.
  intros w. unfold insert_claim, extends.
  destruct a as [|e []]; simpl; repeat split; try done; by apply prefix_app_r.
Qed.

Lemma log_same_outside l msg : keeps same_outside (log l msg).
Proof.
  intros w. unfold log. by destruct (levelno LOG_LEVEL <=? levelno l).
Qed.

Lemma insert_customer_same_outside a c : keeps same_outside (insert_customer a c).
Proof. intros w. unfold insert_customer. by destruct a as [|e []]. Qed.

Lemma insert_claim_same_outside a c : keeps same_outside (insert_claim a c).
Proof. intros w. unfold insert_claim. by destruct a as [|e []]. Qed.

(** ** run_simulation as a whole *)

(** X10. the simulation only appends.  Whatever the store answers, whatever
    signals arrive and however long the loop runs, [run_simulation] removes,
    alters and reorders nothing: the log records and the documents of both
    collections it started with are a prefix of those it leaves. *)
Theorem run_simulation_only_appends
    (customers_col claims_col : collection) (sleep_time : Z)
    (ticks : list tick) (w : world) :
  let w' := (run_simulation customers_col claims_col sleep_time ticks w).2 in
  logged w `prefix_of` logged w'
  /\ customers (db w) `prefix_of` customers (db w')
  /\ claims (db w) `prefix_of` claims (db w').
Proof.
  apply (keeps_run_simulation extends log_extends insert_customer_extends
           insert_claim_extends).
Qed.

(** X11. the simulation works on the store and through the logger only: it
    opens no connection of its own (no reconnect on failure) and prints
    nothing on standard output, whatever the store answers and however long
    the loop runs. *)
Theorem run_simulation_never_reconnects
    (customers_col claims_col : collection) (sleep_time : Z)
    (ticks : list tick) (w : world) :
  let w' := (run_simulation customers_col claims_col sleep_time ticks w).2 in
  connect_attempts w' = connect_attempts w /\ stdout w' = stdout w.
Proof.
  apply (keeps_run_simulation same_outside log_same_outside
           insert_customer_same_outside insert_claim_same_outside).
Qed.


(** ** The inner [try] of the loop body *)

(** The inner [try] hands on a world, normally or with an interrupt. *)
Lemma insert_block_result
    (t : tick) (c : customer) (cl : claim) (w : world) :
  exists w',
    insert_block t c cl w = (Return tt, w')
    \/ insert_block t c cl w = (Raise KeyboardInterrupt, w').
Proof.
  unfold insert_block, try_except, mbind, M_bind, bind,
    insert_customer, insert_claim, count_documents.
  destruct (customer_answer t) as [|e1 w1];
    [|destruct e1; simpl; eexists; auto].
  destruct (claim_answer t) as [|e2 w2];
    [|destruct e2; simpl; eexists; auto].
  simpl.
  destruct (customer_count_answer t) as [e3|];
    [destruct e3; simpl; eexists; auto|].
  destruct (claim_count_answer t) as [e4|];
    [destruct e4; simpl; eexists; auto|].
  simpl. eexists; auto.
Qed.

(** X13. only an interrupt leaves the inner [try].  Whatever the two inserts
    and the two counts answer, the block of steps 2 to 4 ends normally or
    with [KeyboardInterrupt]: every other exception, a failure of
    [count_documents] included, is logged there and goes no further. *)
Theorem insert_block_only_interrupt_escapes
    (t : tick) (c : customer) (cl : claim) (w : world) :
  (insert_block t c cl w).1 = Return tt
  \/ (insert_block t c cl w).1 = Raise KeyboardInterrupt.
Proof.
  unfold insert_block, try_except, mbind, M_bind, bind,
    insert_customer, insert_claim, count_documents.
  destruct (customer_answer t) as [|e1 w1]; [|destruct e1; simpl; auto].
  destruct (claim_answer t) as [|e2 w2]; [|destruct e2; simpl; auto].
  simpl.
  destruct (customer_count_answer t) as [e3|]; [destruct e3; simpl; auto|].
  destruct (claim_count_answer t) as [e4|]; [destruct e4; simpl; auto|].
  simpl. auto.
Qed.

(** X14. a failed count is reported as a failed insert.  When both inserts
    are acknowledged and a [count_documents] call then raises, both
    documents are in the store, the success record "-> Inserted claim ..."
    has been logged, and the handler logs its record for the exception
    after it (for an unclassified error: "Failed to insert data into
    MongoDB due to an unknown error"); the block ends normally. *)
Theorem count_failure_after_inserts
    (t : tick) (c : customer) (cl : claim) (w : world) (e : exn)
    (r : log_record) :
  customer_answer t = Acknowledged ->
  claim_answer t = Acknowledged ->
  customer_count_answer t = Some e
  \/ customer_count_answer t = None /\ claim_count_answer t = Some e ->
  insert_failure_record e = Some r ->
  exists w',
    insert_block t c cl w = (Return tt, w')
    /\ customers (db w') = customers (db w) ++ [c]
    /\ claims (db w') = claims (db w) ++ [cl]
    /\ logged w'
       = logged w ++
         [LogRecord INFO ("-> Inserted claim " +:+ claim_id cl
                          +:+ " for customer " +:+ customer_id c
                          +:+ " (" +:+ policy_type c +:+ ")");
          r].
Proof.
  intros Hc Hcl Hcount Hr.
  unfold insert_block, try_except, mbind, M_bind, bind,
    insert_customer, insert_claim, count_documents.
  rewrite Hc, Hcl.
  destruct Hcount as [-> | [-> ->]];
    destruct e; simpl in *; simplify_eq; eexists;
    (split; [reflexivity|]); simpl; rewrite <- ?app_assoc; done.
Qed.

Lemma count_failure_after_inserts_witness :
  let t := Tick None sample_draws Acknowledged Acknowledged
             (Some (ConnectionFailure "connection closed")) None None in
  let c := Customer "CUST-123" "Ann Lee" "CA" "Home" 1715300000000000 in
  let cl := Claim "CLM-4567" "CUST-123" "2024-03-01" 0x1.34a47ae147ae1p+10
              "Fire" false "Submitted" in
  exists w',
    insert_block t c cl empty_world = (Return tt, w')
    /\ customers (db w') = [c]
    /\ claims (db w') = [cl]
    /\ logged w'
       = [LogRecord INFO "-> Inserted claim CLM-4567 for customer CUST-123 (Home)";
          LogRecord ERROR "Failed to insert data into MongoDB due to an unknown error: connection closed"].
Proof.
  intros t c cl.
  apply (count_failure_after_inserts t c cl empty_world
           (ConnectionFailure "connection closed")
           (LogRecord ERROR "Failed to insert data into MongoDB due to an unknown error: connection closed")).
  - reflexivity.
  - reflexivity.
  - left. reflexivity.
  - reflexivity.
Defined.

(** ** Ticks that succeed *)

(** A quiet tick inserts its pair, logs the three success records, the
    last with the number of claims then in the store, and returns. *)
Lemma quiet_tick_body (sleep_time : Z) (t : tick) (w : world) :
  quiet_tick t = true -> sleep_accepts sleep_time = true ->
  exists c cl w',
    tick_body sleep_time t w = (Return tt, w')
    /\ customers (db w') = customers (db w) ++ [c]
    /\ claims (db w') = claims (db w) ++ [cl]
    /\ claim_customer_id cl = customer_id c
    /\ logged w'
       = logged w ++
         [LogRecord INFO ("-> Inserted claim " +:+ claim_id cl
                          +:+ " for customer " +:+ customer_id c
                          +:+ " (" +:+ policy_type c +:+ ")");
          LogRecord INFO ("Customer Count == "
                          +:+ pretty (Z.of_nat (length (customers (db w')))));
          LogRecord INFO ("Claim Count == "
                          +:+ pretty (Z.of_nat (length (claims (db w')))))].
Proof.
  unfold quiet_tick. intros Hq Hs.
  destruct (generate_signal t) eqn:Hg; [done|].
  destruct (customer_answer t) eqn:Hc; [|done].
  destruct (claim_answer t) eqn:Hcl; [|done].
  destruct (customer_count_answer t) eqn:Hn1; [done|].
  destruct (claim_count_answer t) eqn:Hn2; [done|].
  destruct (sleep_signal t) eqn:Hsig; [done|].
  unfold tick_body, generate_insurance_data, insert_block, try_except,
    mbind, M_bind, bind, insert_customer, insert_claim, count_documents.
  rewrite Hg, Hc, Hcl, Hn1, Hn2, Hsig. simpl.
  rewrite time_sleep_returns by done.
  do 3 eexists. split; [reflexivity|]. simpl.
  split; [done|]. split; [done|]. split; [done|].
  by rewrite <- !app_assoc.
Qed.

Lemma last_snoc3 {A} (l : list A) (a b c : A) : last (l ++ [a; b; c]) = Some c.
Proof.
  change (l ++ [a; b; c]) with (l ++ ([a; b] ++ [c])).
  rewrite app_assoc. apply last_snoc.
Qed.

(** X15. [n] quiet ticks insert [n] customers and [n] claims.  After any
    number of ticks in which nothing fails and no signal arrives, with an
    interval [time.sleep] accepts, the loop is still running, each
    collection has grown by exactly one document per tick, and the last
    record logged (if there was a tick) reports the number of claims then
    in the store. *)
Theorem quiet_ticks_insert_one_pair_each
    (sleep_time : Z) (ticks : list tick) (w : world) :
  forallb quiet_tick ticks = true ->
  sleep_accepts sleep_time = true ->
  exists w',
    simulation_loop sleep_time ticks w = (Running, w')
    /\ length (customers (db w'))
       = (length (customers (db w)) + length ticks)%nat
    /\ length (claims (db w'))
       = (length (claims (db w)) + length ticks)%nat
    /\ (ticks <> [] ->
        last (logged w')
        = Some (LogRecord INFO
                  ("Claim Count == "
                   +:+ pretty (Z.of_nat (length (claims (db w'))))))).
Proof.
  intros Hq Hs. revert w.
  induction ticks as [|t rest IH]; intros w.
  - exists w. simpl. repeat split; try lia. done.
  - simpl in Hq. apply andb_prop in Hq as [Ht Hrest].
    destruct (quiet_tick_body sleep_time t w Ht Hs)
      as (c & cl & w1 & Hbody & Hcust & Hclaims & _ & Hlog).
    destruct (IH Hrest w1) as (w' & Hloop & Hn1 & Hn2 & Hlast).
    exists w'. rewrite (simulation_loop_step _ _ _ _ _ Hbody).
    split; [done|].
    split; [rewrite Hn1, Hcust, length_app; simpl; lia|].
    split; [rewrite Hn2, Hclaims, length_app; simpl; lia|].
    intros _.
    destruct rest as [|t' rest'].
    + simpl in Hloop. injection Hloop as <-.
      rewrite Hlog. apply last_snoc3.
    + by apply Hlast.
Qed.

Lemma quiet_ticks_insert_one_pair_each_witness :
  let t := sample_tick Acknowledged Acknowledged None in
  exists w',
    simulation_loop 0 [t; t; t] empty_world = (Running, w')
    /\ length (customers (db w')) = 3%nat
    /\ length (claims (db w')) = 3%nat
    /\ last (logged w') = Some (LogRecord INFO "Claim Count == 3").
Proof.
  intros t.
  destruct (quiet_ticks_insert_one_pair_each 0 [t; t; t] empty_world
              eq_refl eq_refl) as (w' & Hloop & Hn1 & Hn2 & Hlast).
  exists w'. split; [exact Hloop|]. split; [exact Hn1|]. split; [exact Hn2|].
  rewrite (Hlast ltac:(discriminate)), Hn2. reflexivity.
Defined.

(** ** An interval that [time.sleep] refuses *)

(** With a negative interval a tick always ends in an exception: the
    generator's or an insert's interrupt, or else the sleep's error. *)
Lemma tick_body_negative_raises (sleep_time : Z) (t : tick) (w : world) :
  sleep_time < 0 ->
  exists e w', tick_body sleep_time t w = (Raise e, w').
Proof.
  intros Hneg. unfold tick_body, mbind, M_bind, bind.
  destruct (generate_signal t) as [e|]; [by do 2 eexists|].
  unfold generate_insurance_data, mbind, M_bind, bind. simpl.
  match goal with
  | |- context [insert_block t ?c ?cl ?w0] =>
      destruct (insert_block_result t c cl w0) as [w1 [-> | ->]]
  end.
  - destruct (time_sleep_negative sleep_time (sleep_signal t) w1 Hneg)
      as (e & -> & _). by do 2 eexists.
  - by do 2 eexists.
Qed.

(** X16. a negative interval ends the simulation within its first tick.
    With a sleep time below zero (which [load_configuration] accepts),
    [run_simulation] returns normally during the first tick, whatever
    happens in it: the ticks after the first never take place. *)
Theorem negative_interval_stops_in_first_tick
    (customers_col claims_col : collection) (sleep_time : Z)
    (t : tick) (rest : list tick) (w : world) :
  sleep_time < 0 ->
  (run_simulation customers_col claims_col sleep_time (t :: rest) w).1
    = Return tt
  /\ run_simulation customers_col claims_col sleep_time (t :: rest) w
     = run_simulation customers_col claims_col sleep_time [t] w.
Proof.
  intros Hneg.
  assert (forall w0 l, exists e w',
             simulation_loop sleep_time (t :: l) w0 = (Raise e, w')
             /\ tick_body sleep_time t w0 = (Raise e, w')) as Hloop.
  { intros w0 l.
    destruct (tick_body_negative_raises sleep_time t w0 Hneg) as (e & w' & H).
    exists e, w'. split; [by apply simulation_loop_raises | done]. }
  unfold run_simulation, try_except, mbind, M_bind, bind, log.
  simpl levelno. simpl Z.leb. cbv iota.
  match goal with
  | |- context [simulation_loop sleep_time (t :: rest) ?w0] =>
      destruct (Hloop w0 rest) as (e & w' & -> & Hbody);
      destruct (Hloop w0 []) as (e' & w'' & -> & Hbody')
  end.
  rewrite Hbody in Hbody'. simplify_eq.
  by destruct e'.
Qed.

Lemma negative_interval_stops_in_first_tick_witness :
  let t := sample_tick Acknowledged Acknowledged None in
  let cs := Collection DEFAULT_DB_NAME "customers" in
  let cl := Collection DEFAULT_DB_NAME "claims" in
  (run_simulation cs cl (-3) [t; t; t] empty_world).1 = Return tt
  /\ run_simulation cs cl (-3) [t; t; t] empty_world
     = run_simulation cs cl (-3) [t] empty_world.
Proof.
  intros t cs cl.
  apply (negative_interval_stops_in_first_tick cs cl (-3) t [t; t] empty_world).
  reflexivity.
Defined.

(** ** load_configuration and setup_mongo_connection *)


(** X18. [load_configuration] acts through the logger only: whatever the
    environment holds, it leaves the store, the connection attempts and the
    printed lines as they were, and hands at most two records to the
    logger. *)
Theorem load_configuration_only_logs
    (environ : gmap string string) (w : world) :
  let w' := (load_configuration environ w).2 in
  db w' = db w /\ connect_attempts w' = connect_attempts w
  /\ stdout w' = stdout w
  /\ exists new, logged w' = logged w ++ new /\ (length new <= 2)%nat.
Proof.
  unfold load_configuration, int_of_getenv.
  destruct (environ !! "SLEEP_TIME") as [s|]; [destruct (int_of_str s)|];
    destruct (environ !! "MONGO_URI") as [[|a uri]|]; simpl;
    repeat split; eexists; rewrite <- ?app_assoc; split;
    try reflexivity; simpl; lia.
Qed.

(** What [client[db_name]] does to the world: nothing. *)
Lemma get_database_result (db_name : string) (w : world) :
  get_database db_name w
  = (match (if String.eqb db_name "$external" then None else check_name db_name) with
     | Some e => Raise e
     | None => Return db_name
     end, w).
Proof.
  unfold get_database.
  destruct (String.eqb db_name "$external"); [done|].
  by destruct (check_name db_name).
Qed.

(** pymongo's name check raises [InvalidName] only. *)
Lemma check_name_invalid (db_name : string) (e : exn) :
  check_name db_name = Some e -> exists msg, e = InvalidName msg.
Proof.
  unfold check_name. destruct (String.eqb db_name ""); [intros; simplify_eq; eauto|].
  destruct (find _ _); simpl; intros; simplify_eq; eauto.
Qed.

(** X19. [setup_mongo_connection] makes exactly one connection attempt, with
    the URI it is given, and leaves the documents in the store alone.  When
    the connection stands and pymongo takes the database name, it returns
    the two collections "customers" and "claims" of that database.  When
    the connection stands and pymongo refuses the name (an empty name, or
    one with a blank, dot, dollar, slash, backslash, NUL or double quote),
    the success record is already logged, and [InvalidName] is re-raised
    after one CRITICAL record.  When the connection attempt raises, the
    very exception of the driver is re-raised after one CRITICAL record
    (none for an interrupt). *)
Theorem setup_mongo_connection_result
    (answer : option exn) (mongo_uri db_name : string) (w : world) :
  let r := setup_mongo_connection answer mongo_uri db_name w in
  let refused :=
    if String.eqb db_name "$external" then None else check_name db_name in
  connect_attempts r.2 = connect_attempts w ++ [mongo_uri]
  /\ db r.2 = db w
  /\ match answer, refused with
     | None, None =>
         r.1 = Return (Collection db_name "customers",
                       Collection db_name "claims")
         /\ logged r.2
            = logged w ++
              [LogRecord INFO "Attempting to connect to MongoDB Atlas...";
               LogRecord INFO "Successfully connected to MongoDB Atlas."]
     | None, Some e =>
         r.1 = Raise e
         /\ (exists msg, e = InvalidName msg)
         /\ logged r.2
            = logged w ++
              [LogRecord INFO "Attempting to connect to MongoDB Atlas...";
               LogRecord INFO "Successfully connected to MongoDB Atlas.";
               LogRecord CRITICAL
                 ("An unexpected critical error occurred during MongoDB connection: "
                  +:+ exn_str e)]
     | Some e, _ =>
         r.1 = Raise e
         /\ exists new,
              logged r.2
              = logged w ++
                LogRecord INFO "Attempting to connect to MongoDB Atlas..."
                :: new
              /\ (if is_Exception e
                  then exists msg, new = [LogRecord CRITICAL msg]
                  else new = [])
     end.
Proof.
  unfold setup_mongo_connection, try_except, mbind, M_bind, bind, connect.
  destruct answer as [e|].
  - destruct e; simpl; rewrite <- ?app_assoc; repeat split; eauto.
  - simpl. rewrite get_database_result.
    destruct (if String.eqb db_name "$external" then None
              else check_name db_name) as [e|] eqn:Hname; simpl.
    + assert (exists msg, e = InvalidName msg) as [msg ->].
      { destruct (String.eqb db_name "$external"); [done|].
        by apply check_name_invalid in Hname. }
      simpl. rewrite <- !app_assoc. repeat split; eauto.
    + rewrite <- !app_assoc. repeat split; eauto.
Qed.

(** An empty database name passes [load_configuration] and is refused
    by pymongo once the connection stands. *)
Example empty_database_name_is_refused :
  let r := setup_mongo_connection None "mongodb://db.example:27017" ""
             empty_world in
  r.1 = Raise (InvalidName "database name cannot be the empty string")
  /\ connect_attempts r.2 = ["mongodb://db.example:27017"]
  /\ message <$> logged r.2
     = [ "Attempting to connect to MongoDB Atlas...";
         "Successfully connected to MongoDB Atlas.";
         "An unexpected critical error occurred during MongoDB connection: database name cannot be the empty string" ].
Proof. vm_compute. done. Qed.

(** ** The script as a whole *)

Lemma load_configuration_raises (environ : gmap string string) (w : world) (e : exn) :
  (load_configuration environ w).1 = Raise e -> e = MONGO_URI_UNSET.
Proof.
  unfold load_configuration, int_of_getenv.
  destruct (environ !! "SLEEP_TIME") as [s|]; [destruct (int_of_str s)|];
    destruct (environ !! "MONGO_URI") as [[|a uri]|]; simpl;
    intros H; by simplify_eq.
Qed.

Lemma load_configuration_returns_uri
    (environ : gmap string string) (w : world) (cfg : string * Z * string) :
  (load_configuration environ w).1 = Return cfg ->
  environ !! "MONGO_URI" = Some cfg.1.1 /\ cfg.1.1 <> "".
Proof.
  unfold load_configuration, int_of_getenv.
  destruct (environ !! "SLEEP_TIME") as [s|]; [destruct (int_of_str s)|];
    destruct (environ !! "MONGO_URI") as [[|a uri]|]; simpl;
    intros H; simplify_eq; done.
Qed.

Lemma setup_mongo_connection_outcome
    (answer : option exn) (mongo_uri db_name : string) (w : world) :
  connect_attempts (setup_mongo_connection answer mongo_uri db_name w).2
    = connect_attempts w ++ [mongo_uri]
  /\ db (setup_mongo_connection answer mongo_uri db_name w).2 = db w
  /\ match (setup_mongo_connection answer mongo_uri db_name w).1 with
     | Return _ => answer = None
     | Raise e => answer = Some e \/ answer = None /\ is_Exception e = true
     | Running => False
     end.
Proof.
  unfold setup_mongo_connection, try_except, mbind, M_bind, bind, connect.
  destruct answer as [e|]; [destruct e; simpl; auto|].
  simpl. rewrite get_database_result.
  destruct (if String.eqb db_name "$external" then None
            else check_name db_name) as [e|] eqn:Hname; simpl; [|done].
  assert (exists msg, e = InvalidName msg) as [msg ->].
  { destruct (String.eqb db_name "$external"); [done|].
    by apply check_name_invalid in Hname. }
  simpl. auto.
Qed.

Lemma connect_extends answer uri : keeps extends (connect answer uri).
Proof. intros w. unfold connect. by destruct answer. Qed.

Lemma setup_mongo_connection_extends answer uri db_name :
  keeps extends (setup_mongo_connection answer uri db_name).
Proof.
  unfold setup_mongo_connection, mbind, M_bind.
  apply keeps_bind; [apply _|apply log_extends|intros _].
  apply keeps_try_except; [apply _| |].
  - apply keeps_bind; [apply _|apply connect_extends|intros _].
    apply keeps_bind; [apply _|apply log_extends|intros _].
    apply keeps_bind; [apply _| |intros db; apply keeps_ret, _].
    intros w. rewrite get_database_result. simpl. reflexivity.
  - intros e k H. destruct e; simplify_eq;
      (apply keeps_bind; [apply _|apply log_extends|intros _; apply keeps_raise, _]).
Qed.

Lemma application_extends (p : process) : keeps extends (application p).
Proof.
  unfold application, mbind, M_bind.
  apply keeps_bind; [apply _| |intros cfg].
  - apply keeps_load_configuration; [apply _|apply log_extends].
  - apply keeps_bind; [apply _|apply setup_mongo_connection_extends|intros cols].
    apply keeps_run_simulation;
      [apply _|apply log_extends|apply insert_customer_extends
      |apply insert_claim_extends].
Qed.


(** The connection attempts of the [try] block of the script. *)
Lemma application_connects (p : process) (w : world) :
  connect_attempts (application p w).2 = connect_attempts w
  \/ exists uri,
       environ p !! "MONGO_URI" = Some uri /\ uri <> ""
       /\ connect_attempts (application p w).2 = connect_attempts w ++ [uri].
Proof.
  unfold application, mbind, M_bind, bind.
  pose proof (keeps_load_configuration same_outside log_same_outside
                (environ p) w) as (Hc1 & _).
  destruct (load_configuration (environ p) w) as [[cfg|e0|] w1] eqn:Hload;
    simpl in *; [|by left|by left].
  destruct (load_configuration_returns_uri (environ p) w cfg) as [Huri Hne];
    [by rewrite Hload|].
  right. exists cfg.1.1. split; [done|]. split; [done|].
  destruct (setup_mongo_connection_outcome (connect_answer p)
              cfg.1.1 cfg.2 w1) as (Hc2 & _ & _).
  destruct (setup_mongo_connection _ _ _ w1) as [[cols|e1|] w2]; simpl in *;
    [|congruence|congruence].
  pose proof (keeps_run_simulation same_outside log_same_outside
                insert_customer_same_outside insert_claim_same_outside
                cols.1 cols.2 cfg.1.2 (ticks p) w2) as (Hc3 & _).
  congruence.
Qed.




(** X21. at most one connection.  A run of the script hands at most one URI
    to [pymongo.MongoClient], and if it does, it is the non-empty
    [MONGO_URI] of the environment: there is no retry and no second
    client. *)
Theorem main_connects_at_most_once (p : process) :
  connect_attempts (main p).2 = []
  \/ exists uri,
       environ p !! "MONGO_URI" = Some uri /\ uri <> ""
       /\ connect_attempts (main p).2 = [uri].
Proof.
  unfold main.
  destruct (LoggerUtility.setup_logger _ _ _ _).2.2 as [e|]; [by left|].
  unfold try_finally, try_except, mbind, M_bind, bind, log. simpl.
  match goal with
  | |- context [application p ?w1] =>
      pose proof (application_connects p w1) as Hc;
      destruct (application p w1) as [[[]|e0|] w2]
  end; simpl in *; try done.
  destruct e0; simpl; done.
Qed.

(** X22. the script only appends to the store.  Whatever happens in a run,
    the documents the two collections held at the start are a prefix of
    those they hold at the end: nothing is deleted, updated or reordered. *)
Theorem main_store_only_grows (p : process) :
  customers (initial_db p) `prefix_of` customers (db (main p).2)
  /\ claims (initial_db p) `prefix_of` claims (db (main p).2).
Proof.
  unfold main.
  destruct (LoggerUtility.setup_logger _ _ _ _).2.2 as [e|]; [done|].
  unfold try_finally, try_except, mbind, M_bind, bind, log. simpl.
  match goal with
  | |- context [application p ?w1] =>
      pose proof (application_extends p w1) as (_ & Hc & Hcl);
      destruct (application p w1) as [[[]|e0|] w2]
  end; simpl in *; try done.
  destruct e0; simpl; done.
Qed.

(** X23. both banners.  Once the logger is set up, a run of the script that
    ends has logged the start-up banner right after the records of the log
    clean-up, and the termination banner last, with everything else in
    between. *)
Theorem main_logs_both_banners (p : process) (fs : filesystem)
    (out : list output) :
  LoggerUtility.setup_logger (today p) (sys p) (now p) (initial_files p)
    = (fs, (out, None)) ->
  (main p).1 <> Running ->
  exists between,
    logged (main p).2
    = cleanup_records out ++ [LogRecord INFO STARTING] ++ between
      ++ [LogRecord INFO TERMINATED].
Proof.
  unfold main. intros ->.
  unfold try_finally, try_except, mbind, M_bind, bind, log. simpl.
  match goal with
  | |- context [application p ?w1] =>
      pose proof (application_extends p w1) as ([mid Hlog] & _ & _);
      destruct (application p w1) as [[[]|e0|] w2]
  end; simpl in *; try done.
  - intros _. exists mid. rewrite Hlog. by rewrite <- !app_assoc.
  - destruct e0; simpl; intros _; rewrite Hlog;
      [exists mid | eexists (mid ++ [_]) ..];
      rewrite <- !app_assoc; simpl; reflexivity.
Qed.

Lemma main_logs_both_banners_witness :
  let p := sample_process None sample_environ
             (Some (ConnectionFailure "timed out")) [] in
  exists between,
    logged (main p).2
    = cleanup_records [] ++ [LogRecord INFO STARTING] ++ between
      ++ [LogRecord INFO TERMINATED].
Proof.
  intros p.
  apply (main_logs_both_banners p
           (Fs {[ LOG_FILENAME "2024-05-10" := File 1715300000000000 "" ]} ∅)
           []).
  - vm_compute. reflexivity.
  - vm_compute. discriminate.
Defined.

Lemma load_configuration_db (environ : gmap string string) (w : world) :
  db (load_configuration environ w).2 = db w.
Proof.
  unfold load_configuration, int_of_getenv.
  destruct (environ !! "SLEEP_TIME") as [s|]; [destruct (int_of_str s)|];
    destruct (environ !! "MONGO_URI") as [[|a uri]|]; reflexivity.
Qed.

(** The [try] block of the script when the connection attempt raises. *)
Lemma application_without_connection (p : process) (e : exn) (w : world) :
  connect_answer p = Some e ->
  db (application p w).2 = db w /\ (application p w).1 <> Running.
Proof.
  intros Hc. unfold application, mbind, M_bind, bind.
  pose proof (load_configuration_db (environ p) w) as Hdb.
  pose proof (load_configuration_raises (environ p) w) as Hraise.
  destruct (load_configuration (environ p) w) as [[cfg|e0|] w1] eqn:Hload;
    simpl in *; [|done|].
  - destruct (setup_mongo_connection_outcome (connect_answer p)
                cfg.1.1 cfg.2 w1) as (_ & Hdb2 & Hout).
    destruct (setup_mongo_connection _ _ _ w1) as [[cols|e1|] w2];
      simpl in *; [congruence| |done].
    split; [congruence|done].
  - unfold load_configuration, int_of_getenv in Hload.
    destruct (environ p !! "SLEEP_TIME") as [s|]; [destruct (int_of_str s)|];
      destruct (environ p !! "MONGO_URI") as [[|a uri]|]; by simplify_eq.
Qed.

(** X24. without a connection nothing is written.  When the connection
    attempt raises (or is never made because the configuration fails), the
    script ends without entering the simulation loop: the store is left
    exactly as it was. *)
Theorem failed_connection_leaves_store (p : process) (e : exn) :
  connect_answer p = Some e ->
  db (main p).2 = initial_db p /\ (main p).1 <> Running.
Proof.
  intros Hc. unfold main.
  destruct (LoggerUtility.setup_logger _ _ _ _).2.2 as [e0|]; [done|].
  unfold try_finally, try_except, mbind, M_bind, bind, log. simpl.
  match goal with
  | |- context [application p ?w1] =>
      destruct (application_without_connection p e w1 Hc) as [Hdb Hrun];
      destruct (application p w1) as [[[]|e1|] w2]
  end; simpl in *; try done.
  destruct e1; simpl; done.
Qed.

Lemma failed_connection_leaves_store_witness :
  let p := sample_process None sample_environ
             (Some (ConnectionFailure "timed out"))
             [sample_tick Acknowledged Acknowledged None] in
  db (main p).2 = initial_db p /\ (main p).1 <> Running.
Proof.
  intros p.
  apply (failed_connection_leaves_store p (ConnectionFailure "timed out")).
  reflexivity.
Defined.

(** ** The generated records *)

(** Every number from 100 to 999 prints as three digits that [int()] reads
    back, every number from 1000 to 9999 as four: checked on each. *)
Lemma decimal_three_digits (n : Z) :
  100 <= n <= 999 -> decimal_ok 3 999 n = true.
Proof.
  intros Hn.
  assert (all_from (decimal_ok 3 999) 10 100 = true) as Hall
    by (vm_compute; reflexivity).
  apply (all_from_sound _ _ _ Hall).
  change (2 ^ Z.of_nat 10) with 1024. lia.
Qed.

Lemma decimal_four_digits (n : Z) :
  1000 <= n <= 9999 -> decimal_ok 4 9999 n = true.
Proof.
  intros Hn.
  assert (all_from (decimal_ok 4 9999) 14 1000 = true) as Hall
    by (vm_compute; reflexivity).
  apply (all_from_sound _ _ _ Hall).
  change (2 ^ Z.of_nat 14) with 16384. lia.
Qed.

Lemma decimal_ok_spec (len : nat) (hi n : Z) :
  n <= hi -> decimal_ok len hi n = true ->
  String.length (pretty n) = len /\ all_digits (pretty n) = true
  /\ int_of_str (pretty n) = Some n.
Proof.
  intros Hn. unfold decimal_ok.
  replace (hi <? n) with false by (symmetry; apply Z.ltb_ge; lia).
  simpl. intros H.
  apply andb_prop in H as [H H3]. apply andb_prop in H as [H1 H2].
  apply Nat.eqb_eq in H1. apply bool_decide_eq_true in H3. done.
Qed.

(** X25. the shape of the generated records.  For the draws [random]
    promises ([randint(100, 999)], [randint(1000, 9999)], a choice among
    the three policy types), the customer's id is "CUST-" followed by
    exactly three decimal digits and the claim's id "CLM-" followed by
    exactly four, each reading back as the number drawn; the policy type
    is one of "Auto", "Home", "Health" and the claim's status is
    "Submitted". *)
Theorem generated_records_shape (d : rng_draws) (w : world) :
  100 <= customer_number d <= 999 ->
  1000 <= claim_number d <= 9999 ->
  (policy_index d < 3)%nat ->
  exists c cl ds1 ds2,
    generate_insurance_data d w = (Return (c, cl), w)
    /\ customer_id c = "CUST-" +:+ ds1
    /\ String.length ds1 = 3%nat /\ all_digits ds1 = true
    /\ int_of_str ds1 = Some (customer_number d)
    /\ claim_id cl = "CLM-" +:+ ds2
    /\ String.length ds2 = 4%nat /\ all_digits ds2 = true
    /\ int_of_str ds2 = Some (claim_number d)
    /\ policy_type c ∈ ["Auto"; "Home"; "Health"]
    /\ status cl = "Submitted".
Proof.
  intros H1 H2 H3.
  destruct (decimal_ok_spec 3 999 (customer_number d) ltac:(lia)
              (decimal_three_digits _ H1)) as (Ha & Hb & Hc).
  destruct (decimal_ok_spec 4 9999 (claim_number d) ltac:(lia)
              (decimal_four_digits _ H2)) as (Ha' & Hb' & Hc').
  unfold generate_insurance_data.
  do 2 eexists. exists (pretty (customer_number d)), (pretty (claim_number d)).
  split; [reflexivity|]. simpl.
  repeat (split; [done|]). split; [|done].
  apply list_elem_of_In. apply nth_In. simpl. lia.
Qed.

Lemma generated_records_shape_witness :
  exists c cl ds1 ds2,
    generate_insurance_data sample_draws empty_world
      = (Return (c, cl), empty_world)
    /\ customer_id c = "CUST-" +:+ ds1
    /\ String.length ds1 = 3%nat /\ all_digits ds1 = true
    /\ int_of_str ds1 = Some (customer_number sample_draws)
    /\ claim_id cl = "CLM-" +:+ ds2
    /\ String.length ds2 = 4%nat /\ all_digits ds2 = true
    /\ int_of_str ds2 = Some (claim_number sample_draws)
    /\ policy_type c ∈ ["Auto"; "Home"; "Health"]
    /\ status cl = "Submitted".
Proof.
  apply (generated_records_shape sample_draws empty_world).
  - vm_compute. split; discriminate.
  - vm_compute. split; discriminate.
  - vm_compute. lia.
Defined.

(** * The daily file names *)










